(** * opentelemetry.ext.pymemcache: the command interceptor

    A shallow embedding of [opentelemetry/ext/pymemcache/__init__.py]:
    the wrapper installed around every command of
    [pymemcache.client.base.Client], the instrumentor that installs it and
    the one that removes it.

    The method table of the client class is a finite map from attribute
    names to callables.  Calls run in a state-and-exception monad over the
    method table, the state of the cache client (its sockets and server,
    opaque here) and the trace of the operations performed on the tracing
    collaborator. *)

From Stdlib Require Import ZArith Lia.
From stdpp Require Import base strings list gmap.

Local Open Scope string_scope.
Local Open Scope list_scope.
Set Warnings "-register-all".

(** ** Python values, exceptions and outcomes *)

Inductive pyval : Type :=
| PyNone
| PyBool (b : bool)
| PyInt (z : Z)
| PyStr (s : string)
| PyBytes (s : string)
| PyTuple (xs : list pyval)
| PyList (xs : list pyval)
| PyDict (kvs : list (pyval * pyval)).

(** An instance of a subclass of Python's [Exception]: its class and its
    message.  ([except Exception] handles exactly these; interrupts of the
    interpreter are outside the model.) *)
Record exn : Type := Exn { exn_class : string; exn_message : string }.

Inductive outcome (A : Type) : Type :=
| Return (a : A)
| Raise (e : exn).
Arguments Return {A} a.
Arguments Raise {A} e.

(** Positional arguments and keyword arguments of a call. *)
Abbreviation pyargs := (list pyval).
Abbreviation pykwargs := (list (string * pyval)).

(** An instance of [pymemcache.client.base.Client]: the configured
    endpoint (an address tuple or a socket path). *)
Record Client : Type := { server : pyval }.

(** ** The tracing collaborator *)

Inductive SpanKind : Type := INTERNAL | SERVER | CLIENT | PRODUCER | CONSUMER.

(** The tracer handle.  [tracer.instrumentation_info.name] evaluates to a
    string or raises (a tracer without that attribute); the spans of the
    tracer accept [set_attribute(key, value)] or raise on it. *)
Record Tracer : Type := {
  instrumentation_info_name : outcome string;
  span_set_attribute : string → pyval → outcome unit
}.

(** A span handed out by a tracer. *)
Record Span : Type := { span_id : nat; span_tracer : Tracer }.

(** What was done on the tracing collaborator, oldest first. *)
Inductive event : Type :=
| SpanStarted (span : nat) (name : string) (kind : SpanKind)
              (attributes : list (string * pyval))
| AttributeSet (span : nat) (key : string) (value : pyval)
| SpanEnded (span : nat).

Definition is_SpanStarted (ev : event) : bool :=
  match ev with SpanStarted _ _ _ _ => true | _ => false end.

(** The number of spans created in a trace. *)
Definition spans_started (tr : list event) : nat :=
  length (filter (λ ev, is_SpanStarted ev = true) tr).

(** ** Module constants *)

Definition __name__ : string := "opentelemetry.ext.pymemcache".
Definition _DEFAULT_SERVICE : string := "memcached".
Definition _RAWCMD : string := "db.statement".
Definition _CMD : string := "memcached.command".
Definition COMMANDS : list string :=
  [ "set"; "set_many"; "add"; "replace"; "append"; "prepend"; "cas";
    "get"; "get_many"; "gets"; "gets_many"; "delete"; "delete_many";
    "incr"; "decr"; "touch"; "stats"; "version"; "flush_all"; "quit";
    "set_multi"; "get_multi" ].

(** [bool(s)] of a string. *)
Definition str_truthy (s : string) : bool :=
  match s with EmptyString => false | String _ _ => true end.

(** ["{}{}{}".format(a, b, c)] on strings. *)
Definition format3 (a b c : string) : string := a +:+ b +:+ c.

(** The errors of Python's attribute lookup on the class [Client] and on
    one of its instances. *)
Definition no_attribute_of_type (attribute : string) : exn :=
  Exn "AttributeError"
      ("type object 'Client' has no attribute '" +:+ attribute +:+ "'").
Definition no_attribute_of_object (attribute : string) : exn :=
  Exn "AttributeError"
      ("'Client' object has no attribute '" +:+ attribute +:+ "'").

(** The part of [s] after the prefix [p], when [s] starts with [p]. *)
Fixpoint strip_prefix (p s : string) : option string :=
  match p, s with
  | EmptyString, _ => Some s
  | String a p', String b s' =>
      if Ascii.eqb a b then strip_prefix p' s' else None
  | String _ _, EmptyString => None
  end.

(** ** What the module imports

    The cache client's world, the tracer acquisition of
    [opentelemetry.trace], the version string and the two helpers of
    [opentelemetry.ext.pymemcache.util] are taken as an interface. *)
Class Collaborators : Type := {
  (** The state of the cache client's world: connections and server. *)
  World : Type;
  (** [opentelemetry.trace.get_tracer(name, version, provider)] *)
  TracerProvider : Type;
  get_tracer : string → string → option TracerProvider → Tracer;
  (** [opentelemetry.ext.pymemcache.version.__version__] *)
  __version__ : string;
  (** [util._get_query_string(args)] and
      [util._get_address_attributes(instance)] *)
  _get_query_string : pyargs → outcome string;
  _get_address_attributes : Client → outcome (list (string * pyval))
}.

Section Pymemcache.

Context `{Collaborators}.

(** ** Callables *)

(** A plain method of the client class that works on the world only: a
    function of the instance, the arguments and the world.  It does not
    call other commands of the client; a method that does (one written
    in terms of another command) is not a [method], it is given to the
    wrapper as a [Wrapped] below. *)
Definition method : Type :=
  Client → pyargs → pykwargs → World → outcome pyval * World.

(** The closure [_wrap_cmd(tracer, cmd)] returns: the inner [wrapper] of
    [_with_tracer_wrapper] with [tracer] and [cmd] captured. *)
Record Wrapper : Type := { wrapper_tracer : Tracer; wrapper_cmd : string }.

(** What an attribute of the client class holds here: a plain function
    of pymemcache (undecorated, so without [__wrapped__]) that works on
    the world only, or a [wrapt.FunctionWrapper] (an [ObjectProxy]) around
    a callable, whose [__wrapped__] is that callable. *)
Inductive callable : Type :=
| Function (f : method)
| FunctionWrapper (wrapped : callable) (wrapper : Wrapper).

(** [hasattr(c, "__wrapped__")] *)
Definition hasattr___wrapped__ (c : callable) : bool :=
  match c with Function _ => false | FunctionWrapper _ _ => true end.

(** [c.__wrapped__] *)
Definition getattr___wrapped__ (c : callable) : option callable :=
  match c with Function _ => None | FunctionWrapper w _ => Some w end.

(** [isinstance(c, ObjectProxy)] *)
Definition isinstance_ObjectProxy (c : callable) : bool :=
  match c with Function _ => false | FunctionWrapper _ _ => true end.

(** [bool(c)]: a function is true, a proxy is as true as what it wraps. *)
Fixpoint truthy (c : callable) : bool :=
  match c with Function _ => true | FunctionWrapper w _ => truthy w end.

(** The number of wrapping layers around the plain function. *)
Fixpoint wrapping_layers (c : callable) : nat :=
  match c with Function _ => 0 | FunctionWrapper w _ => S (wrapping_layers w) end.

(** The plain function under all the layers. *)
Fixpoint innermost (c : callable) : method :=
  match c with Function f => f | FunctionWrapper w _ => innermost w end.

(** ** State and monad *)

Record State : Type := {
  methods : gmap string callable;   (* vars(pymemcache.client.base.Client) *)
  world : World;
  trace : list event
}.

Definition set_methods (m : gmap string callable) (st : State) : State :=
  {| methods := m; world := world st; trace := trace st |}.
Definition set_world (w : World) (st : State) : State :=
  {| methods := methods st; world := w; trace := trace st |}.
Definition emit (ev : event) (st : State) : State :=
  {| methods := methods st; world := world st; trace := trace st ++ [ev] |}.

Definition M (A : Type) : Type := State → outcome A * State.

Definition ret {A} (a : A) : M A := λ st, (Return a, st).
Definition raise {A} (e : exn) : M A := λ st, (Raise e, st).
Definition bind {A B} (c : M A) (k : A → M B) : M B := λ st,
  match c st with
  | (Return a, st') => k a st'
  | (Raise e, st') => (Raise e, st')
  end.
(** A pure computation that may raise. *)
Definition lift {A} (r : outcome A) : M A := λ st, (r, st).

Notation "x <- c ;; k" := (bind c (λ x, k))
  (at level 100, c at next level, right associativity, only parsing).
Notation "c ;;; k" := (bind c (λ _, k))
  (at level 100, right associativity, only parsing).

(** [for x in xs: body(x)] *)
Fixpoint for_each {A} (xs : list A) (body : A → M unit) : M unit :=
  match xs with
  | [] => ret tt
  | x :: xs' => body x ;;; for_each xs' body
  end.

(** [try: body / except Exception: pass] *)
Definition try_except_pass (body : M unit) : M unit := λ st,
  match body st with
  | (Return _, st') => (Return tt, st')
  | (Raise _, st') => (Return tt, st')
  end.

(** ** Operations of the tracing collaborator *)

(** Modelled from the spec: the scoped span-creation operation of the
    tracing SDK, which is not among the sources.  Entering
    [tracer.start_as_current_span(name, kind=, attributes=)] creates a
    span with the next free identifier and yields it. *)
Definition start_as_current_span (tracer : Tracer) (name : string)
    (kind : SpanKind) (attributes : list (string * pyval)) : M Span := λ st,
  let id := spans_started (trace st) in
  (Return {| span_id := id; span_tracer := tracer |},
   emit (SpanStarted id name kind attributes) st).

(** Modelled from the spec: leaving the scope finalizes the span, on
    normal return and on exception alike, and lets the exception
    through. *)
Definition span_exit (span : Span) (st : State) : State :=
  emit (SpanEnded (span_id span)) st.

(** [with enter as span: body(span)] *)
Definition with_as {A} (enter : M Span) (body : Span → M A) : M A := λ st,
  match enter st with
  | (Return span, st1) =>
      match body span st1 with (r, st2) => (r, span_exit span st2) end
  | (Raise e, st1) => (Raise e, st1)
  end.

(** Modelled from the spec: [span.set_attribute(key, value)] of the
    tracing SDK; recorded when the span accepts it. *)
Definition set_attribute (span : Span) (key : string) (value : pyval) : M unit :=
  λ st,
  match span_set_attribute (span_tracer span) key value with
  | Return _ => (Return tt, emit (AttributeSet (span_id span) key value) st)
  | Raise e => (Raise e, st)
  end.

(** ** The wrapper *)

Definition _set_connection_attributes (span : Span) (instance : Client) : M unit :=
  items <- lift (_get_address_attributes instance) ;;
  for_each items (λ kv, set_attribute span kv.1 kv.2).

(** The three attribute statements inside the [try] of [_wrap_cmd]. *)
Definition populate_attributes (tracer : Tracer) (cmd : string) (span : Span)
    (instance : Client) (args : pyargs) : M unit :=
  service <- lift (instrumentation_info_name tracer) ;;
  set_attribute span "service" (PyStr service) ;;;
  vals <- lift (_get_query_string args) ;;
  let query := format3 cmd (if str_truthy vals then " " else "") vals in
  set_attribute span _RAWCMD (PyStr query) ;;;
  _set_connection_attributes span instance.

(** The callable a wrapper receives: whether it carries [__wrapped__],
    and what calling it does.  Any callable fits here, also a method that
    carries the marker of a decorator, or one that calls further commands
    of the client. *)
Record Wrapped : Type := {
  has___wrapped__ : bool;
  call_wrapped : pyargs → pykwargs → M pyval
}.

(** The function [_wrap_cmd] before the decorator is applied. *)
Definition _wrap_cmd_func (tracer : Tracer) (cmd : string) (wrapped : Wrapped)
    (instance : Client) (args : pyargs) (kwargs : pykwargs) : M pyval :=
  with_as (start_as_current_span tracer _CMD INTERNAL []) (λ span,
    try_except_pass (populate_attributes tracer cmd span instance args) ;;;
    call_wrapped wrapped args kwargs).

Definition _with_tracer_wrapper
    (func : Tracer → string → Wrapped → Client → pyargs → pykwargs → M pyval)
    (tracer : Tracer) (cmd : string)
    (wrapped : Wrapped) (instance : Client) (args : pyargs) (kwargs : pykwargs)
    : M pyval :=
  (* prevent double wrapping *)
  if has___wrapped__ wrapped then call_wrapped wrapped args kwargs
  else func tracer cmd wrapped instance args kwargs.

(** [_wrap_cmd(tracer, cmd)]: the decorated name, applied. *)
Definition _wrap_cmd (tracer : Tracer) (cmd : string) : Wrapper :=
  {| wrapper_tracer := tracer; wrapper_cmd := cmd |}.

(** Calling the closure [_wrap_cmd(tracer, cmd)]. *)
Definition apply_wrapper (w : Wrapper) :
    Wrapped → Client → pyargs → pykwargs → M pyval :=
  _with_tracer_wrapper _wrap_cmd_func (wrapper_tracer w) (wrapper_cmd w).

(** Calling a callable bound to [instance].  A plain function runs on the
    world; a function wrapper calls its wrapper with the bound wrapped
    callable, the instance and the arguments. *)
Fixpoint call (c : callable) (instance : Client) (args : pyargs)
    (kwargs : pykwargs) : M pyval :=
  match c with
  | Function f => λ st,
      match f instance args kwargs (world st) with
      | (r, w') => (r, set_world w' st)
      end
  | FunctionWrapper wrapped w =>
      apply_wrapper w
        {| has___wrapped__ := hasattr___wrapped__ wrapped;
           call_wrapped := call wrapped instance |}
        instance args kwargs
  end.

(** Calling the method [name] on [instance] with [args] and [kwargs]. *)
Definition invoke (name : string) (instance : Client) (args : pyargs)
    (kwargs : pykwargs) : M pyval := λ st,
  match methods st !! name with
  | Some c => call c instance args kwargs st
  | None => (Raise (no_attribute_of_object name), st)
  end.

(** ** Installing and removing wrappers *)

(** [wrapt.wrap_function_wrapper(module, name, wrapper)]: resolves
    [name] in the module, builds a [FunctionWrapper] around what the
    attribute holds and stores it in the attribute's place. *)
Definition _wrap (module name : string) (wrapper : Wrapper) : M unit := λ st,
  if negb (String.eqb module "pymemcache.client.base")
  then (Raise (Exn "ImportError" module), st)
  else
    match strip_prefix "Client." name with
    | None => (Raise (Exn "AttributeError" name), st)
    | Some attribute =>
        match methods st !! attribute with
        | None => (Raise (no_attribute_of_type attribute), st)
        | Some original =>
            (Return tt,
             set_methods (<[attribute := FunctionWrapper original wrapper]> (methods st)) st)
        end
    end.

(** [_unwrap(obj, attr)] for [obj] the client class, the only object it is
    called on. *)
Definition _unwrap (attr : string) : M unit := λ st,
  match methods st !! attr with
  | None => (Return tt, st)
  | Some func =>
      if truthy func && isinstance_ObjectProxy func && hasattr___wrapped__ func
      then
        match getattr___wrapped__ func with
        | Some wrapped => (Return tt, set_methods (<[attr := wrapped]> (methods st)) st)
        | None => (Raise (Exn "AttributeError" "__wrapped__"), st)
        end
      else (Return tt, st)
  end.

(** [PymemcacheInstrumentor._instrument(tracer_provider=...)] *)
Definition _instrument (tracer_provider : option TracerProvider) : M unit :=
  let tracer := get_tracer __name__ __version__ tracer_provider in
  for_each COMMANDS (λ cmd,
    _wrap "pymemcache.client.base" ("Client." +:+ cmd) (_wrap_cmd tracer cmd)).

(** [PymemcacheInstrumentor._uninstrument()] *)
Definition _uninstrument : M unit :=
  for_each COMMANDS (λ command, _unwrap command).

End Pymemcache.

Arguments Function {_} f.
Arguments FunctionWrapper {_} wrapped wrapper.

(** ** Notions used to state the properties *)

Section Notions.

Context `{Collaborators}.

(** [evs] appended to the trace, nothing else touched. *)
Definition add_events (evs : list event) (st : State) : State :=
  {| methods := methods st; world := world st; trace := trace st ++ evs |}.

(** The client class as the library defines it: every command is there
    and is a plain function. *)
Definition unwrapped_client (m : gmap string callable) : bool :=
  forallb (λ cmd, match m !! cmd with Some (Function _) => true | _ => false end)
          COMMANDS.

(** The wrapper of the layer next to the plain function. *)
Fixpoint innermost_wrapper (c : callable) : option Wrapper :=
  match c with
  | Function _ => None
  | FunctionWrapper (Function _) w => Some w
  | FunctionWrapper wrapped _ => innermost_wrapper wrapped
  end.

(** One layer less: what [_unwrap] leaves in an attribute's place. *)
Definition unwrap_layer (c : callable) : callable :=
  match c with Function f => Function f | FunctionWrapper wrapped _ => wrapped end.

(** Activations and deactivations, in the order they are made. *)
Inductive configuration_call : Type :=
| Activate (tracer_provider : option TracerProvider)
| Deactivate.

Definition configure (op : configuration_call) : M unit :=
  match op with
  | Activate tracer_provider => _instrument tracer_provider
  | Deactivate => _uninstrument
  end.

(** [n] times [body]. *)
Fixpoint repeat_call (n : nat) (body : M unit) : M unit :=
  match n with
  | O => ret tt
  | S n' => bind body (λ _, repeat_call n' body)
  end.

(** The span a call made in [st] through the wrapper [w] works on. *)
Definition span_of (w : Wrapper) (st : State) : Span :=
  {| span_id := spans_started (trace st); span_tracer := wrapper_tracer w |}.

(** The state a traced call ends in: the span [id] is started, the
    attribute events [attrs] follow, the world is [w'], the span is
    ended. *)
Definition traced (id : nat) (attrs : list event) (w' : World) (st : State) : State :=
  {| methods := methods st; world := w';
     trace := trace st ++ SpanStarted id _CMD INTERNAL [] :: attrs ++ [SpanEnded id] |}.

(** Events that set attributes of the span [id], and nothing else. *)
Definition attribute_events (id : nat) (evs : list event) : Prop :=
  Forall (λ ev, ∃ key value, ev = AttributeSet id key value) evs.

(** A computation whose only effect is to set attributes of the span
    [id]: its outcome and the events it appends do not depend on the
    state it starts from. *)
Definition writes_attributes {A} (id : nat) (c : M A) : Prop :=
  ∃ r evs, attribute_events id evs ∧ ∀ st, c st = (r, add_events evs st).

Definition commands_present (st : State) : Prop :=
  ∀ cmd, cmd ∈ COMMANDS → is_Some (methods st !! cmd).

(** The tracer an activation obtains. *)
Definition tracer_for (tracer_provider : option TracerProvider) : Tracer :=
  get_tracer __name__ __version__ tracer_provider.

(** [c] under the layers of successive activations, oldest tracer
    first. *)
Definition wrap_layers (cmd : string) (tracers : list Tracer) (c : callable) : callable :=
  foldl (λ c tracer, FunctionWrapper c (_wrap_cmd tracer cmd)) c tracers.

(** Configuration never touches the world or the trace, and never
    changes which plain function an attribute leads to. *)
Definition same_functions (st st' : State) : Prop :=
  world st' = world st ∧ trace st' = trace st
  ∧ ∀ name, innermost <$> methods st' !! name = innermost <$> methods st !! name.

(** The state in which the callable wrapped by a call made in [st] is
    started: the span of the call is started and the attribute events
    [attrs] are recorded. *)
Definition inside_span (attrs : list event) (st : State) : State :=
  add_events (SpanStarted (spans_started (trace st)) _CMD INTERNAL [] :: attrs) st.

(** No command of the class holds a wrapper; a command may be missing. *)
Definition no_wrappers (m : gmap string callable) : bool :=
  forallb (λ cmd, match m !! cmd with Some (FunctionWrapper _ _) => false | _ => true end)
          COMMANDS.

(** What a program does with the client class: it configures the
    instrumentation, or calls a command and handles the value or the
    exception itself. *)
Inductive action : Type :=
| Configure (op : configuration_call)
| Command (name : string) (instance : Client) (args : pyargs) (kwargs : pykwargs).

Definition perform (st : State) (a : action) : State :=
  match a with
  | Configure op => (configure op st).2
  | Command name instance args kwargs => (invoke name instance args kwargs st).2
  end.

Definition perform_all (actions : list action) (st : State) : State :=
  foldl perform st actions.

(** Every span started in the trace is ended in it. *)
Definition all_spans_ended (tr : list event) : Prop :=
  ∀ id name kind attributes,
    SpanStarted id name kind attributes ∈ tr → SpanEnded id ∈ tr.

(** The events of setting [items] on the span [id], in order. *)
Definition attributes_set (id : nat) (items : list (string * pyval)) : list event :=
  map (λ kv, AttributeSet id kv.1 kv.2) items.

(** The span accepts every attribute of [items]. *)
Definition accepts (span : Span) (items : list (string * pyval)) : Prop :=
  Forall (λ kv, span_set_attribute (span_tracer span) kv.1 kv.2 = Return tt) items.

End Notions.

(** ** A small client to run the model on *)

Module Sample.

(** The world counts the commands that reached the server. *)
Definition echo (name : string) : Client → pyargs → pykwargs → nat → outcome pyval * nat :=
  λ _ args _ sent, (Return (PyTuple (PyStr name :: args)), S sent).

Definition refuse : Client → pyargs → pykwargs → nat → outcome pyval * nat :=
  λ _ _ _ sent, (Raise (Exn "ConnectionRefusedError" "Connection refused"), S sent).

(** A provider is the flag "the SDK is configured".  The SDK's tracers
    carry the instrumentation name; the default tracer does not. *)
Definition sample_get_tracer (name version : string) (provider : option bool) : Tracer :=
  match provider with
  | Some true =>
      {| instrumentation_info_name := Return name;
         span_set_attribute := λ _ _, Return tt |}
  | _ =>
      {| instrumentation_info_name :=
           Raise (Exn "AttributeError" "instrumentation_info");
         span_set_attribute := λ _ _, Return tt |}
  end.

Fixpoint join_keys (xs : list pyval) : string :=
  match xs with
  | [] => ""
  | [PyStr s] => s
  | PyStr s :: rest => s +:+ " " +:+ join_keys rest
  | _ :: rest => join_keys rest
  end.

(** Renders the key or keys in the first argument. *)
Definition sample_query_string (args : pyargs) : outcome string :=
  match args with
  | [] => Return ""
  | PyStr key :: _ => Return key
  | PyList keys :: _ => Return (join_keys keys)
  | PyNone :: _ => Raise (Exn "TypeError" "key is None")
  | _ => Return ""
  end.

Definition sample_address_attributes (instance : Client) : outcome (list (string * pyval)) :=
  match server instance with
  | PyTuple [PyStr host; PyInt port] =>
      Return [("net.peer.name", PyStr host); ("net.peer.port", PyInt port)]
  | PyStr path => Return [("net.peer.name", PyStr path)]
  | _ => Raise (Exn "ValueError" "server")
  end.

#[export] Instance sample : Collaborators := {|
  World := nat;
  TracerProvider := bool;
  get_tracer := sample_get_tracer;
  __version__ := "0.9.dev0";
  _get_query_string := sample_query_string;
  _get_address_attributes := sample_address_attributes
|}.

Definition client_class : gmap string callable :=
  list_to_map (map (λ cmd, (cmd, Function (echo cmd))) COMMANDS).

Definition start : State :=
  {| methods := client_class; world := 0; trace := [] |}.

(** The same class with a [get] that fails on the network. *)
Definition start_refusing : State :=
  {| methods := <["get" := Function refuse]> client_class; world := 0; trace := [] |}.

Definition localhost : Client := {| server := PyTuple [PyStr "localhost"; PyInt 11211] |}.

(** The keyword argument [tracer_provider] of an activation: the SDK's
    provider, or none given. *)
Definition sdk : option (@TracerProvider sample) := Some true.
Definition no_provider : option (@TracerProvider sample) := None.

(** Commands under one layer of the SDK's tracer. *)
Definition traced_get : callable :=
  FunctionWrapper (Function (echo "get")) (_wrap_cmd (tracer_for sdk) "get").
Definition traced_version : callable :=
  FunctionWrapper (Function (echo "version")) (_wrap_cmd (tracer_for sdk) "version").
Definition traced_refusing_get : callable :=
  FunctionWrapper (Function refuse) (_wrap_cmd (tracer_for sdk) "get").

(** The class of a release of the library without [set_multi]. *)
Definition start_without_set_multi : State :=
  {| methods := delete "set_multi" client_class; world := 0; trace := [] |}.

(** A client whose endpoint is not an address the helper understands. *)
Definition misconfigured : Client := {| server := PyNone |}.

(** [delete_many] as the library writes it, in terms of [delete]:
    [for key in keys: self.delete(key, noreply)], then [True]. *)
Definition delete_many_by_delete (instance : Client) (args : pyargs)
    (kwargs : pykwargs) : M pyval :=
  let keys := match args with PyList keys :: _ => keys | _ => [] end in
  bind (for_each keys (λ key,
          bind (invoke "delete" instance [key; PyBool true] []) (λ _, ret tt)))
       (λ _, ret (PyBool true)).

(** What [instance.delete_many] is once the tracer [sdk] was activated:
    the wrapper of the command around the library's method. *)
Definition traced_delete_many (instance : Client) (args : pyargs)
    (kwargs : pykwargs) : M pyval :=
  apply_wrapper (_wrap_cmd (tracer_for sdk) "delete_many")
    {| has___wrapped__ := false; call_wrapped := delete_many_by_delete instance |}
    instance args kwargs.

(** The class of a release without [set_multi], with the method [close],
    which is not a command. *)
Definition start_with_close : State :=
  {| methods := <["close" := Function (echo "close")]> (delete "set_multi" client_class);
     world := 0; trace := [] |}.

(** A tracer whose spans take string values only. *)
Definition strings_only : Tracer :=
  {| instrumentation_info_name := Return "strings_only";
     span_set_attribute := λ _ value,
       match value with
       | PyStr _ => Return tt
       | _ => Raise (Exn "TypeError" "attribute value")
       end |}.

(** A program: two activations, two calls, a deactivation, a call. *)
Definition program : list action :=
  [ Configure (Activate sdk); Configure (Activate no_provider);
    Command "get" localhost [PyStr "k"] [];
    Command "set" localhost [PyStr "k"; PyStr "v"] [("noreply", PyBool true)];
    Configure Deactivate;
    Command "version" localhost [] [] ].

End Sample.

(** * Properties *)

Section Properties.

Context `{Collaborators}.

(** ** States and traces *)

Lemma emit_add_events ev st : emit ev st = add_events [ev] st.
Proof. reflexivity. Qed.

Lemma add_events_nil st : add_events [] st = st.
Proof. destruct st; unfold add_events; simpl. by rewrite app_nil_r. Qed.

Lemma add_events_app evs1 evs2 st :
  add_events evs2 (add_events evs1 st) = add_events (evs1 ++ evs2) st.
Proof. unfold add_events; simpl. by rewrite app_assoc. Qed.

Lemma set_methods_same st : set_methods (methods st) st = st.
Proof. by destruct st. Qed.

Lemma spans_started_app tr1 tr2 :
  spans_started (tr1 ++ tr2) = spans_started tr1 + spans_started tr2.
Proof. unfold spans_started. by rewrite filter_app, length_app. Qed.

Lemma attribute_events_no_span id evs :
  attribute_events id evs → spans_started evs = 0.
Proof.
  induction 1 as [|ev evs [key [value ->]] _ IH]; [done|].
  unfold spans_started in *. by rewrite filter_cons_False.
Qed.

Lemma attribute_events_app id evs1 evs2 :
  attribute_events id evs1 → attribute_events id evs2 →
  attribute_events id (evs1 ++ evs2).
Proof. apply Forall_app_2. Qed.

Lemma writes_lift {A} id (r : outcome A) : writes_attributes id (lift r).
Proof.
  exists r, []. split; [constructor|]. intros st. by rewrite add_events_nil.
Qed.

Lemma writes_ret {A} id (a : A) : writes_attributes id (ret a).
Proof. apply (writes_lift id (Return a)). Qed.

Lemma writes_bind {A B} id (c : M A) (k : A → M B) :
  writes_attributes id c → (∀ a, writes_attributes id (k a)) →
  writes_attributes id (bind c k).
Proof.
  intros (r & evs & Hevs & Hc) Hk. destruct r as [a|e].
  - destruct (Hk a) as (r' & evs' & Hevs' & Hka).
    exists r', (evs ++ evs'). split; [by apply attribute_events_app|].
    intros st. unfold bind. by rewrite Hc, Hka, add_events_app.
  - exists (Raise e), evs. split; [done|].
    intros st. unfold bind. by rewrite Hc.
Qed.

Lemma writes_set_attribute span key value :
  writes_attributes (span_id span) (set_attribute span key value).
Proof.
  unfold writes_attributes, set_attribute.
  destruct (span_set_attribute (span_tracer span) key value) as [[]|e].
  - exists (Return tt), [AttributeSet (span_id span) key value].
    split; [|done]. constructor; [by eexists _, _|constructor].
  - exists (Raise e), []. split; [constructor|].
    intros st. by rewrite add_events_nil.
Qed.

Lemma writes_for_each {A} id (xs : list A) (body : A → M unit) :
  (∀ x, writes_attributes id (body x)) → writes_attributes id (for_each xs body).
Proof.
  intros Hbody. induction xs as [|x xs IH]; simpl.
  - apply writes_ret.
  - apply writes_bind; [apply Hbody | intros _; apply IH].
Qed.

Lemma writes_set_connection_attributes span instance :
  writes_attributes (span_id span) (_set_connection_attributes span instance).
Proof.
  unfold _set_connection_attributes.
  apply writes_bind; [apply writes_lift|]. intros items.
  apply writes_for_each. intros kv. apply writes_set_attribute.
Qed.

Lemma writes_populate_attributes tracer cmd span instance args :
  writes_attributes (span_id span)
    (populate_attributes tracer cmd span instance args).
Proof.
  unfold populate_attributes.
  apply writes_bind; [apply writes_lift|]. intros service.
  apply writes_bind; [apply writes_set_attribute|]. intros _.
  apply writes_bind; [apply writes_lift|]. intros vals.
  apply writes_bind; [apply writes_set_attribute|]. intros _.
  apply writes_set_connection_attributes.
Qed.

(** ** Calls *)

Lemma truthy_true (c : callable) : truthy c = true.
Proof. induction c; simpl; auto. Qed.

Lemma call_function f instance args kwargs st :
  call (Function f) instance args kwargs st =
    ((f instance args kwargs (world st)).1,
     set_world (f instance args kwargs (world st)).2 st).
Proof. simpl. by destruct (f instance args kwargs (world st)). Qed.

(** The guard of [_with_tracer_wrapper]: a layer around a callable that
    carries [__wrapped__] calls it and does nothing else. *)
Lemma call_delegates wrapped w instance args kwargs :
  hasattr___wrapped__ wrapped = true →
  call (FunctionWrapper wrapped w) instance args kwargs
  = call wrapped instance args kwargs.
Proof.
  intros Hmarker. simpl. unfold apply_wrapper, _with_tracer_wrapper. simpl.
  by rewrite Hmarker.
Qed.

(** The layer around the plain function: everything [_wrap_cmd] does. *)
Lemma call_innermost_layer f w instance args kwargs st :
  ∃ r attrs,
    attribute_events (spans_started (trace st)) attrs ∧
    (∀ st0, populate_attributes (wrapper_tracer w) (wrapper_cmd w) (span_of w st)
              instance args st0 = (r, add_events attrs st0)) ∧
    call (FunctionWrapper (Function f) w) instance args kwargs st =
      ((f instance args kwargs (world st)).1,
       traced (spans_started (trace st)) attrs
              (f instance args kwargs (world st)).2 st).
Proof.
  destruct (writes_populate_attributes (wrapper_tracer w) (wrapper_cmd w)
              (span_of w st) instance args) as (r & attrs & Hattrs & Hpop).
  exists r, attrs. split; [exact Hattrs|]. split; [exact Hpop|].
  simpl. unfold apply_wrapper, _with_tracer_wrapper, _wrap_cmd_func. simpl.
  unfold with_as, start_as_current_span, bind, try_except_pass.
  fold (span_of w st). rewrite Hpop.
  assert (Hstate : ∀ w',
    span_exit (span_of w st)
      (set_world w' (add_events attrs
         (emit (SpanStarted (spans_started (trace st)) _CMD INTERNAL []) st)))
    = traced (spans_started (trace st)) attrs w' st).
  { intros w'. unfold span_exit, set_world, add_events, emit, traced. simpl.
    f_equal. by rewrite <- !app_assoc. }
  destruct r as [[]|e]; simpl;
    destruct (f instance args kwargs _) as [r' w'];
    simpl; by rewrite Hstate.
Qed.

Lemma innermost_wrapper_layers c :
  hasattr___wrapped__ c = true → is_Some (innermost_wrapper c).
Proof.
  induction c as [f|c IH w]; [done|]. intros _.
  destruct c as [f|c' w']; [by eexists|]. by apply IH.
Qed.

(** Whatever the number of layers, a call behaves as if there were only
    the layer next to the plain function. *)
Lemma call_layers c w instance args kwargs :
  innermost_wrapper c = Some w →
  call c instance args kwargs
  = call (FunctionWrapper (Function (innermost c)) w) instance args kwargs.
Proof.
  induction c as [f|c IH w0]; [done|]. intros Hw.
  destruct c as [f|c' w']; [by inversion Hw|].
  rewrite call_delegates by done. by apply IH.
Qed.

Lemma call_result c instance args kwargs st :
  (call c instance args kwargs st).1 = (innermost c instance args kwargs (world st)).1
  ∧ world (call c instance args kwargs st).2
    = (innermost c instance args kwargs (world st)).2
  ∧ methods (call c instance args kwargs st).2 = methods st.
Proof.
  destruct (hasattr___wrapped__ c) eqn:Hmarker.
  - destruct (innermost_wrapper_layers c Hmarker) as [w Hw].
    rewrite (call_layers c w) by done.
    destruct (call_innermost_layer (innermost c) w instance args kwargs st)
      as (r & attrs & _ & _ & ->). done.
  - destruct c; [|done]. by rewrite call_function.
Qed.

Lemma call_spans c instance args kwargs st :
  spans_started (trace (call c instance args kwargs st).2)
  = spans_started (trace st) + (if hasattr___wrapped__ c then 1 else 0).
Proof.
  destruct (hasattr___wrapped__ c) eqn:Hmarker.
  - destruct (innermost_wrapper_layers c Hmarker) as [w Hw].
    rewrite (call_layers c w) by done.
    destruct (call_innermost_layer (innermost c) w instance args kwargs st)
      as (r & attrs & Hattrs & _ & ->). simpl.
    rewrite spans_started_app. f_equal.
    change (SpanStarted (spans_started (trace st)) _CMD INTERNAL [] :: attrs ++ [SpanEnded (spans_started (trace st))])
      with ([SpanStarted (spans_started (trace st)) _CMD INTERNAL []] ++ attrs ++ [SpanEnded (spans_started (trace st))]).
    rewrite !spans_started_app, (attribute_events_no_span _ _ Hattrs). done.
  - destruct c; [|done]. rewrite call_function. simpl. lia.
Qed.

(** ** The method table *)

Lemma COMMANDS_NoDup : NoDup COMMANDS.
Proof. compute_done. Qed.

Lemma unwrapped_client_lookup m cmd :
  unwrapped_client m = true → cmd ∈ COMMANDS →
  ∃ f, m !! cmd = Some (Function f).
Proof.
  unfold unwrapped_client. rewrite forallb_forall. intros Hall Hcmd.
  apply list_elem_of_In in Hcmd. specialize (Hall cmd Hcmd).
  destruct (m !! cmd) as [[f|c w]|]; [by exists f|done|done].
Qed.

Lemma strip_prefix_Client cmd : strip_prefix "Client." ("Client." +:+ cmd) = Some cmd.
Proof. reflexivity. Qed.

Lemma _wrap_command tracer cmd c st :
  methods st !! cmd = Some c →
  _wrap "pymemcache.client.base" ("Client." +:+ cmd) (_wrap_cmd tracer cmd) st
  = (Return tt,
     set_methods (<[cmd := FunctionWrapper c (_wrap_cmd tracer cmd)]> (methods st)) st).
Proof.
  intros Hc. unfold _wrap. rewrite strip_prefix_Client, Hc.
  by rewrite (proj2 (String.eqb_eq _ _) eq_refl).
Qed.

Lemma _wrap_missing tracer cmd st :
  methods st !! cmd = None →
  _wrap "pymemcache.client.base" ("Client." +:+ cmd) (_wrap_cmd tracer cmd) st
  = (Raise (no_attribute_of_type cmd), st).
Proof.
  intros Hc. unfold _wrap. rewrite strip_prefix_Client, Hc.
  by rewrite (proj2 (String.eqb_eq _ _) eq_refl).
Qed.

Lemma _unwrap_alter attr st :
  _unwrap attr st = (Return tt, set_methods (alter unwrap_layer attr (methods st)) st).
Proof.
  unfold _unwrap. destruct (methods st !! attr) as [[f|c w]|] eqn:Hattr; simpl.
  - rewrite alter_id; [by rewrite set_methods_same|].
    intros c Hc. rewrite Hattr in Hc. by inversion Hc.
  - rewrite truthy_true. simpl. do 2 f_equal.
    apply map_eq. intros name. rewrite lookup_insert, lookup_alter.
    case_decide; [subst; by rewrite Hattr|done].
  - rewrite alter_id; [by rewrite set_methods_same|].
    intros c Hc. by rewrite Hattr in Hc.
Qed.

Lemma decide_elem_of_cons {A} (name a : string) (l : list string) (x y : A) :
  (if decide (name ∈ a :: l) then x else y) =
  if decide (name = a) then x else if decide (name ∈ l) then x else y.
Proof.
  destruct (decide (name = a)) as [->|Hne].
  - rewrite decide_True; [done|]. apply elem_of_cons. by left.
  - destruct (decide (name ∈ l)) as [Hin|Hnin].
    + rewrite decide_True; [done|]. apply elem_of_cons. by right.
    + rewrite decide_False; [done|]. rewrite elem_of_cons. by intros [?|?].
Qed.

Lemma decide_elem_of_nil {A} (name : string) (x y : A) :
  (if decide (name ∈ @nil string) then x else y) = y.
Proof. rewrite decide_False; [done|]. apply not_elem_of_nil. Qed.

(** The loop of [_instrument], over any list of distinct names that the
    class defines. *)
Lemma for_each_wrap tracer (l : list string) :
  NoDup l → ∀ st, (∀ cmd, cmd ∈ l → is_Some (methods st !! cmd)) →
  ∃ m', for_each l (λ cmd,
            _wrap "pymemcache.client.base" ("Client." +:+ cmd) (_wrap_cmd tracer cmd)) st
          = (Return tt, set_methods m' st)
        ∧ ∀ name, m' !! name =
            if decide (name ∈ l)
            then (λ c, FunctionWrapper c (_wrap_cmd tracer name)) <$> methods st !! name
            else methods st !! name.
Proof.
  induction 1 as [|a l Ha Hl IH]; intros st Hpresent.
  - exists (methods st). split; [simpl; unfold ret; by rewrite set_methods_same|].
    intros name. by rewrite decide_elem_of_nil.
  - destruct (Hpresent a) as [c Hc]; [apply elem_of_cons; by left|].
    destruct (IH (set_methods (<[a := FunctionWrapper c (_wrap_cmd tracer a)]> (methods st)) st))
      as (m' & Hrun & Hm').
    { intros cmd Hcmd. simpl. rewrite lookup_insert_is_Some.
      destruct (decide (a = cmd)); [by left|right]. split; [done|].
      apply Hpresent, elem_of_cons. by right. }
    exists m'. split.
    + simpl. unfold bind. rewrite (_wrap_command tracer a c st Hc). exact Hrun.
    + intros name. rewrite Hm', decide_elem_of_cons. simpl.
      destruct (decide (name = a)) as [->|Hne].
      * rewrite (decide_False (P := a ∈ l)) by done.
        by rewrite lookup_insert_eq, Hc.
      * by rewrite lookup_insert_ne by done.
Qed.

(** The loop of [_uninstrument]. *)
Lemma for_each_unwrap (l : list string) :
  NoDup l → ∀ st,
  ∃ m', for_each l (λ command, _unwrap command) st = (Return tt, set_methods m' st)
        ∧ ∀ name, m' !! name =
            if decide (name ∈ l) then unwrap_layer <$> methods st !! name
            else methods st !! name.
Proof.
  induction 1 as [|a l Ha Hl IH]; intros st.
  - exists (methods st). split; [simpl; unfold ret; by rewrite set_methods_same|].
    intros name. by rewrite decide_elem_of_nil.
  - destruct (IH (set_methods (alter unwrap_layer a (methods st)) st))
      as (m' & Hrun & Hm').
    exists m'. split.
    + simpl. unfold bind. rewrite _unwrap_alter. exact Hrun.
    + intros name. rewrite Hm', decide_elem_of_cons. simpl.
      destruct (decide (name = a)) as [->|Hne].
      * rewrite (decide_False (P := a ∈ l)) by done.
        by rewrite lookup_alter_eq.
      * by rewrite lookup_alter_ne by done.
Qed.

Lemma _instrument_table tracer_provider st :
  commands_present st →
  ∃ m', _instrument tracer_provider st = (Return tt, set_methods m' st)
        ∧ ∀ name, m' !! name =
            if decide (name ∈ COMMANDS)
            then (λ c, FunctionWrapper c (_wrap_cmd (tracer_for tracer_provider) name))
                   <$> methods st !! name
            else methods st !! name.
Proof. intros Hpresent. by apply for_each_wrap; [apply COMMANDS_NoDup|]. Qed.

Lemma _uninstrument_table st :
  ∃ m', _uninstrument st = (Return tt, set_methods m' st)
        ∧ ∀ name, m' !! name =
            if decide (name ∈ COMMANDS) then unwrap_layer <$> methods st !! name
            else methods st !! name.
Proof. apply for_each_unwrap, COMMANDS_NoDup. Qed.

(** ** Layers *)

Lemma wrap_layers_cons cmd tracer tracers c :
  wrap_layers cmd (tracer :: tracers) c
  = wrap_layers cmd tracers (FunctionWrapper c (_wrap_cmd tracer cmd)).
Proof. reflexivity. Qed.

Lemma wrapping_layers_wrap_layers cmd tracers c :
  wrapping_layers (wrap_layers cmd tracers c) = wrapping_layers c + length tracers.
Proof.
  revert c. induction tracers as [|t ts IH]; intros c.
  - simpl. lia.
  - rewrite wrap_layers_cons, IH. simpl. lia.
Qed.

Lemma innermost_wrap_layers cmd tracers c :
  innermost (wrap_layers cmd tracers c) = innermost c.
Proof.
  revert c. induction tracers as [|t ts IH]; intros c; [done|].
  by rewrite wrap_layers_cons, IH.
Qed.

Lemma innermost_wrapper_wrap_layers cmd tracers c w :
  innermost_wrapper c = Some w →
  innermost_wrapper (wrap_layers cmd tracers c) = Some w.
Proof.
  revert c. induction tracers as [|t ts IH]; intros c Hw; [done|].
  rewrite wrap_layers_cons. apply IH. destruct c; [done|exact Hw].
Qed.

Lemma hasattr_wrapping_layers c :
  hasattr___wrapped__ c = match wrapping_layers c with 0 => false | S _ => true end.
Proof. by destruct c. Qed.

Lemma wrapping_layers_unwrap_layer c :
  wrapping_layers (unwrap_layer c) = pred (wrapping_layers c).
Proof. by destruct c. Qed.

Lemma innermost_unwrap_layer c : innermost (unwrap_layer c) = innermost c.
Proof. by destruct c. Qed.

Lemma wrapping_layers_iter_unwrap k c :
  wrapping_layers (Nat.iter k unwrap_layer c) = wrapping_layers c - k.
Proof.
  induction k as [|k IH]; simpl; [lia|].
  rewrite wrapping_layers_unwrap_layer, IH. lia.
Qed.

Lemma wrapping_layers_0 c : wrapping_layers c = 0 → c = Function (innermost c).
Proof. by destruct c. Qed.

(** ** Sequences of activations and deactivations *)

Lemma commands_present_fmap st m' (g : string → callable → callable) :
  commands_present st →
  (∀ name, m' !! name =
     if decide (name ∈ COMMANDS) then g name <$> methods st !! name
     else methods st !! name) →
  commands_present (set_methods m' st).
Proof.
  intros Hpresent Hm' cmd Hcmd. simpl. rewrite Hm', decide_True by done.
  destruct (Hpresent cmd Hcmd) as [c ->]. by eexists.
Qed.

Lemma activations_table (providers : list (option TracerProvider)) :
  ∀ st, commands_present st →
  ∃ m', for_each providers _instrument st = (Return tt, set_methods m' st)
        ∧ ∀ name, m' !! name =
            if decide (name ∈ COMMANDS)
            then wrap_layers name (map tracer_for providers) <$> methods st !! name
            else methods st !! name.
Proof.
  induction providers as [|p ps IH]; intros st Hpresent.
  - exists (methods st). split; [simpl; unfold ret; by rewrite set_methods_same|].
    intros name. simpl. destruct (decide _); [|done]. by destruct (methods st !! name).
  - destruct (_instrument_table p st Hpresent) as (m1 & Hrun1 & Hm1).
    destruct (IH (set_methods m1 st)) as (m' & Hrun & Hm').
    { by apply (commands_present_fmap st m1
                  (λ name c, FunctionWrapper c (_wrap_cmd (tracer_for p) name))). }
    exists m'. split.
    + simpl. unfold bind. rewrite Hrun1. exact Hrun.
    + intros name. rewrite Hm'. simpl. rewrite Hm1.
      destruct (decide _); [|done]. by destruct (methods st !! name).
Qed.

Lemma deactivations_table (k : nat) :
  ∀ st,
  ∃ m', repeat_call k _uninstrument st = (Return tt, set_methods m' st)
        ∧ ∀ name, m' !! name =
            if decide (name ∈ COMMANDS)
            then Nat.iter k unwrap_layer <$> methods st !! name
            else methods st !! name.
Proof.
  induction k as [|k IH]; intros st.
  - exists (methods st). split; [simpl; unfold ret; by rewrite set_methods_same|].
    intros name. simpl. destruct (decide _); [|done]. by destruct (methods st !! name).
  - destruct (_uninstrument_table st) as (m1 & Hrun1 & Hm1).
    destruct (IH (set_methods m1 st)) as (m' & Hrun & Hm').
    exists m'. split.
    + simpl. unfold bind. rewrite Hrun1. exact Hrun.
    + intros name. rewrite Hm'. simpl. rewrite Hm1.
      destruct (decide _); [|done]. destruct (methods st !! name); [|done].
      simpl. f_equal. by rewrite <- Nat.iter_succ_r.
Qed.

Lemma same_functions_refl st : same_functions st st.
Proof. by repeat split. Qed.

Lemma same_functions_trans st1 st2 st3 :
  same_functions st1 st2 → same_functions st2 st3 → same_functions st1 st3.
Proof.
  intros (Hw1 & Ht1 & Hm1) (Hw2 & Ht2 & Hm2). repeat split; [congruence..|].
  intros name. by rewrite Hm2.
Qed.

Lemma same_functions_bind {A B} (c : M A) (k : A → M B) st :
  same_functions st (c st).2 →
  (∀ a st1, same_functions st1 (k a st1).2) →
  same_functions st (bind c k st).2.
Proof.
  intros Hc Hk. unfold bind. destruct (c st) as [[a|e] st1]; simpl in *; [|done].
  eapply same_functions_trans; [exact Hc|apply Hk].
Qed.

Lemma same_functions_for_each {A} (xs : list A) (body : A → M unit) :
  (∀ x st, same_functions st (body x st).2) →
  ∀ st, same_functions st (for_each xs body st).2.
Proof.
  intros Hbody. induction xs as [|x xs IH]; intros st; simpl.
  - apply same_functions_refl.
  - apply same_functions_bind; [apply Hbody|]. intros _ st1. apply IH.
Qed.

Lemma same_functions_insert st attr c c' :
  methods st !! attr = Some c → innermost c' = innermost c →
  same_functions st (set_methods (<[attr := c']> (methods st)) st).
Proof.
  intros Hc Hinner. repeat split. intros name. simpl.
  destruct (decide (attr = name)) as [->|Hne].
  - by rewrite lookup_insert_eq, Hc; simpl; rewrite Hinner.
  - by rewrite lookup_insert_ne.
Qed.

Lemma same_functions_wrap module name wrapper st :
  same_functions st (_wrap module name wrapper st).2.
Proof.
  unfold _wrap. destruct (negb _); [apply same_functions_refl|].
  destruct (strip_prefix _ _) as [attribute|]; [|apply same_functions_refl].
  destruct (methods st !! attribute) as [original|] eqn:Hattr;
    [|apply same_functions_refl].
  simpl. by apply (same_functions_insert st attribute original).
Qed.

Lemma same_functions_unwrap attr st : same_functions st (_unwrap attr st).2.
Proof.
  unfold _unwrap. destruct (methods st !! attr) as [[f|c w]|] eqn:Hattr; simpl;
    [apply same_functions_refl| |apply same_functions_refl].
  rewrite truthy_true. simpl.
  by apply (same_functions_insert st attr (FunctionWrapper c w)).
Qed.

Lemma same_functions_configure op st : same_functions st (configure op st).2.
Proof.
  destruct op as [tracer_provider|]; simpl.
  - apply same_functions_for_each. intros cmd st1. apply same_functions_wrap.
  - apply same_functions_for_each. intros cmd st1. apply same_functions_unwrap.
Qed.

(** A call through any number of layers (at least one): one span is
    started, its attributes are set, the plain function runs on the
    world, the span is ended. *)
Lemma call_traced c instance args kwargs st :
  hasattr___wrapped__ c = true →
  ∃ w r attrs,
    innermost_wrapper c = Some w ∧
    attribute_events (spans_started (trace st)) attrs ∧
    (∀ st0, populate_attributes (wrapper_tracer w) (wrapper_cmd w) (span_of w st)
              instance args st0 = (r, add_events attrs st0)) ∧
    call c instance args kwargs st =
      ((innermost c instance args kwargs (world st)).1,
       traced (spans_started (trace st)) attrs
              (innermost c instance args kwargs (world st)).2 st).
Proof.
  intros Hmarker. destruct (innermost_wrapper_layers c Hmarker) as [w Hw].
  destruct (call_innermost_layer (innermost c) w instance args kwargs st)
    as (r & attrs & Hattrs & Hpop & Hcall).
  exists w, r, attrs. repeat split; [done..|].
  by rewrite (call_layers c w).
Qed.

Lemma unwrapped_client_present st :
  unwrapped_client (methods st) = true → commands_present st.
Proof.
  intros Hclient cmd Hcmd.
  destruct (unwrapped_client_lookup _ cmd Hclient Hcmd) as [f ->]. by eexists.
Qed.

(** ** The claims *)

(** After one or more activations on the client class, every call of a
    command starts exactly one span: the trace grows by the start of one
    span, events setting attributes of that span, and its end.  A layer
    whose inner callable carries [__wrapped__] calls it directly and
    creates no span. *)
Lemma one_span_after_activations :
  (∀ wrapped w instance args kwargs st,
      hasattr___wrapped__ wrapped = true →
      call (FunctionWrapper wrapped w) instance args kwargs st
      = call wrapped instance args kwargs st)
  ∧
  (∀ (providers : list (option TracerProvider)) cmd instance args kwargs st,
      providers ≠ [] → cmd ∈ COMMANDS → unwrapped_client (methods st) = true →
      ∃ st1 attrs,
        for_each providers _instrument st = (Return tt, st1)
        ∧ attribute_events (spans_started (trace st1)) attrs
        ∧ trace (invoke cmd instance args kwargs st1).2
          = trace st1 ++ SpanStarted (spans_started (trace st1)) _CMD INTERNAL []
                         :: attrs ++ [SpanEnded (spans_started (trace st1))]
        ∧ spans_started (trace (invoke cmd instance args kwargs st1).2)
          = S (spans_started (trace st1))).
Proof.
  split.
  { intros wrapped w instance args kwargs st Hmarker. by rewrite call_delegates. }
  intros providers cmd instance args kwargs st Hne Hcmd Hclient.
  destruct (activations_table providers st (unwrapped_client_present _ Hclient))
    as (m' & Hrun & Hm').
  destruct (unwrapped_client_lookup _ cmd Hclient Hcmd) as [f Hf].
  specialize (Hm' cmd). rewrite decide_True, Hf in Hm' by done. simpl in Hm'.
  set (c := wrap_layers cmd (map tracer_for providers) (Function f)) in *.
  assert (Hmarker : hasattr___wrapped__ c = true).
  { rewrite hasattr_wrapping_layers. unfold c.
    rewrite wrapping_layers_wrap_layers, length_map.
    destruct providers; [done|]. done. }
  destruct (call_traced c instance args kwargs (set_methods m' st) Hmarker)
    as (w & r & attrs & _ & Hattrs & _ & Hcall).
  assert (Hinvoke : invoke cmd instance args kwargs (set_methods m' st)
                    = call c instance args kwargs (set_methods m' st)).
  { unfold invoke. simpl. by rewrite Hm'. }
  exists (set_methods m' st), attrs. split; [exact Hrun|]. split; [exact Hattrs|].
  split.
  - by rewrite Hinvoke, Hcall.
  - rewrite Hinvoke, call_spans, Hmarker. lia.
Qed.

(** The wrapper around any callable without the marker: it starts a
    span, records attribute events that depend on the tracer, the command,
    the instance and the positional arguments only, calls the callable
    inside the span, and ends the span after it. *)
Lemma wrapper_around w instance args st :
  ∃ attrs,
    attribute_events (spans_started (trace st)) attrs ∧
    ∀ wrapped kwargs,
      has___wrapped__ wrapped = false →
      apply_wrapper w wrapped instance args kwargs st
      = ((call_wrapped wrapped args kwargs (inside_span attrs st)).1,
         span_exit (span_of w st)
           (call_wrapped wrapped args kwargs (inside_span attrs st)).2).
Proof.
  destruct (writes_populate_attributes (wrapper_tracer w) (wrapper_cmd w)
              (span_of w st) instance args) as (r & attrs & Hattrs & Hpop).
  exists attrs. split; [exact Hattrs|]. intros wrapped kwargs Hmarker.
  unfold apply_wrapper, _with_tracer_wrapper. rewrite Hmarker.
  unfold _wrap_cmd_func, with_as, start_as_current_span, bind, try_except_pass.
  fold (span_of w st). rewrite Hpop, emit_add_events, add_events_app.
  change ([SpanStarted (spans_started (trace st)) _CMD INTERNAL []] ++ attrs)
    with (SpanStarted (spans_started (trace st)) _CMD INTERNAL [] :: attrs).
  fold (inside_span attrs st).
  destruct r as [[]|e];
    by destruct (call_wrapped wrapped args kwargs (inside_span attrs st)).
Qed.

Lemma spans_started_inside_span id attrs st :
  attribute_events id attrs →
  spans_started (trace (inside_span attrs st)) = S (spans_started (trace st)).
Proof.
  intros Hattrs. unfold inside_span. simpl. rewrite spans_started_app.
  change (SpanStarted (spans_started (trace st)) _CMD INTERNAL [] :: attrs)
    with ([SpanStarted (spans_started (trace st)) _CMD INTERNAL []] ++ attrs).
  rewrite spans_started_app, (attribute_events_no_span _ _ Hattrs).
  unfold spans_started at 2. simpl. lia.
Qed.

Lemma spans_started_span_exit span st :
  spans_started (trace (span_exit span st)) = spans_started (trace st).
Proof.
  unfold span_exit. simpl. rewrite spans_started_app.
  unfold spans_started at 2. simpl. lia.
Qed.

(** C1, as the code has it.  The wrapper opens one span of its own per
    call.  A wrapper whose inner callable carries [__wrapped__] calls it
    directly and opens none.  A wrapper around a callable without the
    marker starts one span, sets its attributes, runs the callable inside
    the span and ends the span: when the callable creates [n] spans (the
    spans of the commands it calls on the client), the call creates
    [1 + n].  So after one or more activations on the client class, a
    call of a command whose original works on the world only starts
    exactly one span. *)
Theorem C1_one_span_of_its_own :
  (∀ w wrapped instance args kwargs st,
      has___wrapped__ wrapped = true →
      apply_wrapper w wrapped instance args kwargs st
      = call_wrapped wrapped args kwargs st)
  ∧
  (∀ w instance args st,
      ∃ attrs,
        attribute_events (spans_started (trace st)) attrs ∧
        ∀ wrapped kwargs,
          has___wrapped__ wrapped = false →
          apply_wrapper w wrapped instance args kwargs st
          = ((call_wrapped wrapped args kwargs (inside_span attrs st)).1,
             span_exit (span_of w st)
               (call_wrapped wrapped args kwargs (inside_span attrs st)).2)
          ∧ ∀ n,
              spans_started (trace (call_wrapped wrapped args kwargs (inside_span attrs st)).2)
              = spans_started (trace (inside_span attrs st)) + n →
              spans_started (trace (apply_wrapper w wrapped instance args kwargs st).2)
              = spans_started (trace st) + 1 + n)
  ∧
  (∀ wrapped w instance args kwargs st,
      hasattr___wrapped__ wrapped = true →
      call (FunctionWrapper wrapped w) instance args kwargs st
      = call wrapped instance args kwargs st)
  ∧
  (∀ (providers : list (option TracerProvider)) cmd instance args kwargs st,
      providers ≠ [] → cmd ∈ COMMANDS → unwrapped_client (methods st) = true →
      ∃ st1 attrs,
        for_each providers _instrument st = (Return tt, st1)
        ∧ attribute_events (spans_started (trace st1)) attrs
        ∧ trace (invoke cmd instance args kwargs st1).2
          = trace st1 ++ SpanStarted (spans_started (trace st1)) _CMD INTERNAL []
                         :: attrs ++ [SpanEnded (spans_started (trace st1))]
        ∧ spans_started (trace (invoke cmd instance args kwargs st1).2)
          = S (spans_started (trace st1))).
Proof.
  split.
  { intros w wrapped instance args kwargs st Hmarker.
    unfold apply_wrapper, _with_tracer_wrapper. by rewrite Hmarker. }
  split.
  { intros w instance args st.
    destruct (wrapper_around w instance args st) as (attrs & Hattrs & Hcall).
    exists attrs. split; [exact Hattrs|]. intros wrapped kwargs Hmarker.
    split; [by apply Hcall|]. intros n Hn.
    rewrite (Hcall wrapped kwargs Hmarker). cbn [snd].
    rewrite spans_started_span_exit, Hn.
    rewrite (spans_started_inside_span _ _ _ Hattrs). lia. }
  exact one_span_after_activations.
Qed.

(** C2. Whatever activations and deactivations were made on the client
    class, calling a command returns the value, or raises the exception,
    that the original method produces for the same instance, positional
    and keyword arguments, and leaves the client's world as the original
    method leaves it. *)
Theorem C2_same_result_as_original
    (ops : list configuration_call) cmd f instance args kwargs st :
  methods st !! cmd = Some (Function f) →
  (invoke cmd instance args kwargs (for_each ops configure st).2).1
  = (f instance args kwargs (world st)).1
  ∧ world (invoke cmd instance args kwargs (for_each ops configure st).2).2
    = (f instance args kwargs (world st)).2.
Proof.
  intros Hf.
  destruct (same_functions_for_each ops configure same_functions_configure st)
    as (Hworld & _ & Hsame).
  specialize (Hsame cmd). rewrite Hf in Hsame. simpl in Hsame.
  destruct (methods (for_each ops configure st).2 !! cmd) as [c|] eqn:Hc; [|done].
  simpl in Hsame. injection Hsame as Hinner.
  unfold invoke. rewrite Hc.
  destruct (call_result c instance args kwargs (for_each ops configure st).2)
    as (Hr & Hw & _).
  rewrite Hr, Hw, Hinner, Hworld. done.
Qed.

(** The statement string that [_wrap_cmd] formats. *)
Lemma append_empty_r (s : string) : s +:+ "" = s.
Proof.
  induction s as [|a s IH]; [done|].
  change (String a s +:+ "") with (String a (s +:+ "")). by rewrite IH.
Qed.

Lemma format3_command_string cmd vals :
  format3 cmd (if str_truthy vals then " " else "") vals
  = if String.eqb vals "" then cmd else cmd +:+ " " +:+ vals.
Proof.
  unfold format3. destruct vals as [|a vals]; simpl; [|done].
  by rewrite append_empty_r.
Qed.

Lemma traced_unfold id attrs w' st span :
  span_id span = id →
  traced id attrs w' st
  = span_exit span
      (set_world w' (add_events attrs (emit (SpanStarted id _CMD INTERNAL []) st))).
Proof.
  intros <-. unfold span_exit, set_world, add_events, emit, traced. simpl.
  f_equal. by rewrite <- !app_assoc.
Qed.

(** When the tracer has an instrumentation name and the span takes the
    service attribute, that attribute is the first one set. *)
Lemma populate_service tracer cmd span instance args service :
  instrumentation_info_name tracer = Return service →
  span_set_attribute (span_tracer span) "service" (PyStr service) = Return tt →
  ∃ r evs, attribute_events (span_id span) evs ∧
    ∀ st0, populate_attributes tracer cmd span instance args st0
           = (r, add_events (AttributeSet (span_id span) "service" (PyStr service) :: evs) st0).
Proof.
  intros Hname Hset.
  assert (Hrest : writes_attributes (span_id span)
    (bind (lift (_get_query_string args)) (λ vals,
       bind (set_attribute span _RAWCMD
               (PyStr (format3 cmd (if str_truthy vals then " " else "") vals)))
            (λ _, _set_connection_attributes span instance)))).
  { apply writes_bind; [apply writes_lift|]. intros vals.
    apply writes_bind; [apply writes_set_attribute|]. intros _.
    apply writes_set_connection_attributes. }
  destruct Hrest as (r & evs & Hevs & Hrest).
  exists r, evs. split; [done|]. intros st0.
  unfold populate_attributes. unfold bind at 1. unfold lift at 1. rewrite Hname.
  unfold bind at 1. unfold set_attribute at 1. rewrite Hset.
  rewrite Hrest, emit_add_events, add_events_app. done.
Qed.

(** When, moreover, the arguments render to [vals] and the span takes the
    statement attribute, the statement is the second attribute set. *)
Lemma populate_statement tracer cmd span instance args service vals :
  instrumentation_info_name tracer = Return service →
  span_set_attribute (span_tracer span) "service" (PyStr service) = Return tt →
  _get_query_string args = Return vals →
  span_set_attribute (span_tracer span) _RAWCMD
    (PyStr (format3 cmd (if str_truthy vals then " " else "") vals)) = Return tt →
  ∃ r evs, attribute_events (span_id span) evs ∧
    ∀ st0, populate_attributes tracer cmd span instance args st0
           = (r, add_events
                   (AttributeSet (span_id span) "service" (PyStr service)
                    :: AttributeSet (span_id span) _RAWCMD
                         (PyStr (format3 cmd (if str_truthy vals then " " else "") vals))
                    :: evs) st0).
Proof.
  intros Hname Hset Hvals Hset'.
  destruct (writes_set_connection_attributes span instance)
    as (r & evs & Hevs & Hrest).
  exists r, evs. split; [done|]. intros st0.
  unfold populate_attributes. unfold bind at 1. unfold lift at 1. rewrite Hname.
  unfold bind at 1. unfold set_attribute at 1. rewrite Hset.
  unfold bind at 1. unfold lift at 1. rewrite Hvals.
  unfold bind at 1. unfold set_attribute at 1. rewrite Hset'.
  rewrite Hrest, !emit_add_events, !add_events_app. done.
Qed.

(** C3. When the attribute statements of a wrapped call raise, whatever
    raised (the service attribute, the rendering of the command string,
    the connection attributes), the exception is discarded: the client
    method is called with the original instance and arguments on the
    world as it was, and its value or exception is what the caller gets;
    the span is ended after it. *)
Theorem C3_attribute_errors_swallowed f w instance args kwargs st e st1 :
  populate_attributes (wrapper_tracer w) (wrapper_cmd w) (span_of w st) instance args
    (emit (SpanStarted (spans_started (trace st)) _CMD INTERNAL []) st)
  = (Raise e, st1) →
  call (FunctionWrapper (Function f) w) instance args kwargs st
  = ((f instance args kwargs (world st)).1,
     span_exit (span_of w st) (set_world (f instance args kwargs (world st)).2 st1)).
Proof.
  intros Hraise.
  destruct (call_innermost_layer f w instance args kwargs st)
    as (r & attrs & _ & Hpop & ->).
  rewrite Hpop in Hraise. injection Hraise as _ <-.
  by rewrite (traced_unfold _ _ _ _ (span_of w st)).
Qed.

(** C4. When the client method under a wrapped call raises, the caller
    gets that same exception, and the state the exception leaves behind
    has the span of the call started and ended: the end of the span is
    the last event of the trace. *)
Theorem C4_exception_propagates c instance args kwargs st e w' :
  hasattr___wrapped__ c = true →
  innermost c instance args kwargs (world st) = (Raise e, w') →
  ∃ st' attrs,
    call c instance args kwargs st = (Raise e, st')
    ∧ world st' = w'
    ∧ attribute_events (spans_started (trace st)) attrs
    ∧ trace st' = trace st ++ SpanStarted (spans_started (trace st)) _CMD INTERNAL []
                              :: attrs ++ [SpanEnded (spans_started (trace st))]
    ∧ last (trace st') = Some (SpanEnded (spans_started (trace st))).
Proof.
  intros Hmarker Hraise.
  destruct (call_traced c instance args kwargs st Hmarker)
    as (w & r & attrs & _ & Hattrs & _ & Hcall).
  rewrite Hraise in Hcall. simpl in Hcall.
  eexists _, attrs. split; [exact Hcall|]. repeat split; [done|].
  simpl. by rewrite app_comm_cons, app_assoc, last_snoc.
Qed.

(** C7. When a wrapped call gets as far as the statement attribute (the
    service attribute was set, the arguments rendered to [vals], the span
    takes the attribute), the value recorded under the statement key is
    the command name alone when [vals] is empty, and the command name, one
    space and [vals] otherwise. *)
Theorem C7_command_string f w instance args kwargs st service vals :
  instrumentation_info_name (wrapper_tracer w) = Return service →
  span_set_attribute (wrapper_tracer w) "service" (PyStr service) = Return tt →
  _get_query_string args = Return vals →
  span_set_attribute (wrapper_tracer w) _RAWCMD
    (PyStr (format3 (wrapper_cmd w) (if str_truthy vals then " " else "") vals))
  = Return tt →
  AttributeSet (spans_started (trace st)) _RAWCMD
    (PyStr (if String.eqb vals "" then wrapper_cmd w
            else wrapper_cmd w +:+ " " +:+ vals))
  ∈ trace (call (FunctionWrapper (Function f) w) instance args kwargs st).2.
Proof.
  intros Hname Hset Hvals Hset'.
  destruct (call_innermost_layer f w instance args kwargs st)
    as (r & attrs & _ & Hpop & ->).
  destruct (populate_statement (wrapper_tracer w) (wrapper_cmd w) (span_of w st)
              instance args service vals Hname Hset Hvals Hset')
    as (r' & evs & _ & Hpop').
  specialize (Hpop st). rewrite Hpop' in Hpop. injection Hpop as _ Hattrs.
  apply app_inv_head in Hattrs. subst attrs.
  rewrite <- format3_command_string. simpl.
  apply elem_of_app. right. do 2 apply elem_of_cons, or_intror.
  apply elem_of_cons. by left.
Qed.

(** C8. A wrapped call whose inner callable does not carry [__wrapped__]
    first creates a span of kind INTERNAL, named by the constant [_CMD]
    whatever the command, with no initial attributes; it creates no other
    span. *)
Theorem C8_span_creation wrapped w instance args kwargs st :
  hasattr___wrapped__ wrapped = false →
  ∃ later,
    trace (call (FunctionWrapper wrapped w) instance args kwargs st).2
    = trace st ++ SpanStarted (spans_started (trace st)) _CMD INTERNAL [] :: later
    ∧ spans_started later = 0.
Proof.
  intros Hmarker. destruct wrapped as [f|c w0]; [|done].
  destruct (call_innermost_layer f w instance args kwargs st)
    as (r & attrs & Hattrs & _ & ->).
  exists (attrs ++ [SpanEnded (spans_started (trace st))]). split; [done|].
  by rewrite spans_started_app, (attribute_events_no_span _ _ Hattrs).
Qed.

(** C10. The names a wrapped call uses: the span is named
    "memcached.command"; when the tracer has an instrumentation name, the
    attribute "service" is set to it; when the arguments then render, the
    command string is set under the key "db.statement". *)
Theorem C10_telemetry_names f w instance args kwargs st :
  let tr := trace (call (FunctionWrapper (Function f) w) instance args kwargs st).2 in
  let id := spans_started (trace st) in
  SpanStarted id "memcached.command" INTERNAL [] ∈ tr
  ∧ ∀ service,
      instrumentation_info_name (wrapper_tracer w) = Return service →
      span_set_attribute (wrapper_tracer w) "service" (PyStr service) = Return tt →
      AttributeSet id "service" (PyStr service) ∈ tr
      ∧ ∀ vals,
          _get_query_string args = Return vals →
          span_set_attribute (wrapper_tracer w) "db.statement"
            (PyStr (format3 (wrapper_cmd w) (if str_truthy vals then " " else "") vals))
          = Return tt →
          AttributeSet id "db.statement"
            (PyStr (format3 (wrapper_cmd w) (if str_truthy vals then " " else "") vals))
          ∈ tr.
Proof.
  intros tr id. subst tr id.
  destruct (call_innermost_layer f w instance args kwargs st)
    as (r & attrs & _ & Hpop & ->).
  split.
  { simpl. apply elem_of_app. right. apply elem_of_cons. by left. }
  intros service Hname Hset. split.
  - destruct (populate_service (wrapper_tracer w) (wrapper_cmd w) (span_of w st)
                instance args service Hname Hset) as (r' & evs & _ & Hpop').
    specialize (Hpop st). rewrite Hpop' in Hpop. injection Hpop as _ Hattrs.
    apply app_inv_head in Hattrs. subst attrs. simpl.
    apply elem_of_app. right. apply elem_of_cons, or_intror.
    apply elem_of_cons. by left.
  - intros vals Hvals Hset'.
    destruct (populate_statement (wrapper_tracer w) (wrapper_cmd w) (span_of w st)
                instance args service vals Hname Hset Hvals Hset')
      as (r' & evs & _ & Hpop').
    specialize (Hpop st). rewrite Hpop' in Hpop. injection Hpop as _ Hattrs.
    apply app_inv_head in Hattrs. subst attrs. simpl.
    apply elem_of_app. right. do 2 apply elem_of_cons, or_intror.
    apply elem_of_cons. by left.
Qed.

(** Deactivating right after activating gives the method table back. *)
Lemma _instrument_uninstrument tracer_provider st :
  commands_present st →
  bind (_instrument tracer_provider) (λ _, _uninstrument) st = (Return tt, st).
Proof.
  intros Hpresent.
  destruct (_instrument_table tracer_provider st Hpresent) as (m1 & Hrun1 & Hm1).
  destruct (_uninstrument_table (set_methods m1 st)) as (m2 & Hrun2 & Hm2).
  unfold bind. rewrite Hrun1, Hrun2. f_equal.
  replace m2 with (methods st); [by destruct st|].
  apply map_eq. intros name. rewrite Hm2. simpl. rewrite Hm1.
  destruct (decide _); [|done]. by destruct (methods st !! name).
Qed.

(** Deactivating a class that holds no wrapper changes nothing. *)
Lemma _uninstrument_unwrapped st :
  unwrapped_client (methods st) = true → _uninstrument st = (Return tt, st).
Proof.
  intros Hclient. destruct (_uninstrument_table st) as (m' & Hrun & Hm').
  rewrite Hrun. f_equal. replace m' with (methods st); [by destruct st|].
  apply map_eq. intros name. rewrite Hm'.
  destruct (decide _) as [Hcmd|]; [|done].
  by destruct (unwrapped_client_lookup _ name Hclient Hcmd) as [f ->].
Qed.

(** C5, as the code has it.  The wrap step never skips: every activation
    adds a layer, so after the activations [providers] each command holds
    as many layers as there were activations.  The marker is checked when
    a layer is called, which makes all layers but the innermost pass the
    call on: a call creates one span when there is a layer, none when
    there is none. *)
Theorem C5_layers_stack_guard_at_call
    (providers : list (option TracerProvider)) cmd st :
  cmd ∈ COMMANDS → unwrapped_client (methods st) = true →
  ∃ st1 c,
    for_each providers _instrument st = (Return tt, st1)
    ∧ methods st1 !! cmd = Some c
    ∧ wrapping_layers c = length providers
    ∧ ∀ instance args kwargs st2,
        spans_started (trace (call c instance args kwargs st2).2)
        = spans_started (trace st2) + Nat.min 1 (length providers).
Proof.
  intros Hcmd Hclient.
  destruct (activations_table providers st (unwrapped_client_present _ Hclient))
    as (m' & Hrun & Hm').
  destruct (unwrapped_client_lookup _ cmd Hclient Hcmd) as [f Hf].
  specialize (Hm' cmd). rewrite decide_True, Hf in Hm' by done. simpl in Hm'.
  exists (set_methods m' st), (wrap_layers cmd (map tracer_for providers) (Function f)).
  split; [exact Hrun|]. split; [exact Hm'|].
  assert (Hlayers : wrapping_layers
            (wrap_layers cmd (map tracer_for providers) (Function f))
          = length providers).
  { by rewrite wrapping_layers_wrap_layers, length_map. }
  split; [exact Hlayers|].
  intros instance args kwargs st2.
  rewrite call_spans, hasattr_wrapping_layers, Hlayers.
  by destruct (length providers).
Qed.

(** C6. [_uninstrument] never raises and touches only the method table;
    for every command it puts the [__wrapped__] of a wrapper in the
    wrapper's place and leaves anything else as it is.  On a class that
    was never activated it changes nothing; after one activation it gives
    back the class as it was, and a second deactivation changes nothing
    more; commands called after that create no span and return what the
    original method returns. *)
Theorem C6_deactivate_restores :
  (∀ st, ∃ m',
      _uninstrument st = (Return tt, set_methods m' st)
      ∧ ∀ cmd, cmd ∈ COMMANDS →
          m' !! cmd = match methods st !! cmd with
                      | Some (FunctionWrapper wrapped _) => Some wrapped
                      | other => other
                      end)
  ∧ (∀ st, unwrapped_client (methods st) = true →
       _uninstrument st = (Return tt, st)
       ∧ ∀ tracer_provider,
           bind (_instrument tracer_provider) (λ _, _uninstrument) st = (Return tt, st)
           ∧ bind (_instrument tracer_provider)
               (λ _, bind _uninstrument (λ _, _uninstrument)) st = (Return tt, st)
           ∧ ∀ cmd f instance args kwargs,
               methods st !! cmd = Some (Function f) →
               let st' := (bind (_instrument tracer_provider) (λ _, _uninstrument) st).2 in
               (invoke cmd instance args kwargs st').1
               = (f instance args kwargs (world st')).1
               ∧ trace (invoke cmd instance args kwargs st').2 = trace st').
Proof.
  split.
  { intros st. destruct (_uninstrument_table st) as (m' & Hrun & Hm').
    exists m'. split; [exact Hrun|]. intros cmd Hcmd.
    rewrite Hm', decide_True by done.
    by destruct (methods st !! cmd) as [[f|c w]|]. }
  intros st Hclient. split; [by apply _uninstrument_unwrapped|].
  intros tracer_provider.
  pose proof (_instrument_uninstrument tracer_provider st
                (unwrapped_client_present _ Hclient)) as Hback.
  split; [exact Hback|]. split.
  - unfold bind in *.
    destruct (_instrument tracer_provider st) as [[[]|e] st1]; [|done].
    rewrite Hback. by apply _uninstrument_unwrapped.
  - intros cmd f instance args kwargs Hf st'. subst st'. rewrite Hback. simpl.
    unfold invoke. rewrite Hf, call_function. done.
Qed.

(** After two activations and one deactivation every command still
    holds a wrapper, the one of the first activation around the original,
    and a call of an original that works on the world only creates one
    span.  In general each deactivation takes one layer off every
    command. *)
Lemma layers_after_deactivations :
  (∀ (p1 p2 : option TracerProvider) cmd st,
      cmd ∈ COMMANDS → unwrapped_client (methods st) = true →
      ∃ st' f,
        bind (_instrument p1) (λ _, bind (_instrument p2) (λ _, _uninstrument)) st
        = (Return tt, st')
        ∧ methods st !! cmd = Some (Function f)
        ∧ methods st' !! cmd
          = Some (FunctionWrapper (Function f) (_wrap_cmd (tracer_for p1) cmd))
        ∧ ∀ instance args kwargs,
            spans_started (trace (invoke cmd instance args kwargs st').2)
            = S (spans_started (trace st')))
  ∧ (∀ (providers : list (option TracerProvider)) k cmd st,
      cmd ∈ COMMANDS → unwrapped_client (methods st) = true →
      ∃ st' c,
        bind (for_each providers _instrument) (λ _, repeat_call k _uninstrument) st
        = (Return tt, st')
        ∧ methods st' !! cmd = Some c
        ∧ wrapping_layers c = length providers - k).
Proof.
  split.
  - intros p1 p2 cmd st Hcmd Hclient.
    destruct (unwrapped_client_lookup _ cmd Hclient Hcmd) as [f Hf].
    pose proof (unwrapped_client_present _ Hclient) as Hpresent.
    destruct (_instrument_table p1 st Hpresent) as (m1 & Hrun1 & Hm1).
    assert (Hpresent1 : commands_present (set_methods m1 st)).
    { by apply (commands_present_fmap st m1
                  (λ name c, FunctionWrapper c (_wrap_cmd (tracer_for p1) name))). }
    pose proof (_instrument_uninstrument p2 (set_methods m1 st) Hpresent1) as Hback.
    exists (set_methods m1 st), f. split.
    { unfold bind at 1. rewrite Hrun1. exact Hback. }
    split; [exact Hf|].
    assert (Hcmd1 : methods (set_methods m1 st) !! cmd
              = Some (FunctionWrapper (Function f) (_wrap_cmd (tracer_for p1) cmd))).
    { simpl. by rewrite Hm1, decide_True, Hf by done. }
    split; [exact Hcmd1|].
    intros instance args kwargs. unfold invoke. rewrite Hcmd1, call_spans. simpl. lia.
  - intros providers k cmd st Hcmd Hclient.
    destruct (unwrapped_client_lookup _ cmd Hclient Hcmd) as [f Hf].
    destruct (activations_table providers st (unwrapped_client_present _ Hclient))
      as (m1 & Hrun1 & Hm1).
    destruct (deactivations_table k (set_methods m1 st)) as (m2 & Hrun2 & Hm2).
    exists (set_methods m2 st),
      (Nat.iter k unwrap_layer (wrap_layers cmd (map tracer_for providers) (Function f))).
    split.
    { unfold bind. rewrite Hrun1. exact Hrun2. }
    split.
    { simpl. rewrite Hm2, decide_True by done. simpl.
      by rewrite Hm1, decide_True, Hf by done. }
    by rewrite wrapping_layers_iter_unwrap, wrapping_layers_wrap_layers, length_map.
Qed.

(** C9, as the code has it.  After two activations and one deactivation
    every command still holds a wrapper, the one of the first activation
    around the original: each deactivation takes one layer off every
    command, so after the activations [providers] and [k] deactivations a
    command holds [length providers - k] layers.  A call after the single
    deactivation still goes through that wrapper, which opens one span of
    its own: one span in all when the original works on the world only,
    [1 + n] when the original creates [n] spans by calling commands of
    the client. *)
Theorem C9_deactivation_removes_one_layer :
  (∀ (p1 p2 : option TracerProvider) cmd st,
      cmd ∈ COMMANDS → unwrapped_client (methods st) = true →
      ∃ st' f,
        bind (_instrument p1) (λ _, bind (_instrument p2) (λ _, _uninstrument)) st
        = (Return tt, st')
        ∧ methods st !! cmd = Some (Function f)
        ∧ methods st' !! cmd
          = Some (FunctionWrapper (Function f) (_wrap_cmd (tracer_for p1) cmd))
        ∧ ∀ instance args kwargs,
            spans_started (trace (invoke cmd instance args kwargs st').2)
            = S (spans_started (trace st')))
  ∧ (∀ (providers : list (option TracerProvider)) k cmd st,
      cmd ∈ COMMANDS → unwrapped_client (methods st) = true →
      ∃ st' c,
        bind (for_each providers _instrument) (λ _, repeat_call k _uninstrument) st
        = (Return tt, st')
        ∧ methods st' !! cmd = Some c
        ∧ wrapping_layers c = length providers - k)
  ∧ (∀ (p1 : option TracerProvider) cmd instance args st,
      ∃ attrs,
        attribute_events (spans_started (trace st)) attrs ∧
        ∀ wrapped kwargs n,
          has___wrapped__ wrapped = false →
          spans_started (trace (call_wrapped wrapped args kwargs (inside_span attrs st)).2)
          = spans_started (trace (inside_span attrs st)) + n →
          spans_started
            (trace (apply_wrapper (_wrap_cmd (tracer_for p1) cmd) wrapped
                      instance args kwargs st).2)
          = spans_started (trace st) + 1 + n).
Proof.
  destruct layers_after_deactivations as [Htwo Hgeneral].
  split; [exact Htwo|]. split; [exact Hgeneral|].
  intros p1 cmd instance args st.
  destruct (wrapper_around (_wrap_cmd (tracer_for p1) cmd) instance args st)
    as (attrs & Hattrs & Hcall).
  exists attrs. split; [exact Hattrs|]. intros wrapped kwargs n Hmarker Hn.
  rewrite (Hcall wrapped kwargs Hmarker). cbn [snd].
  rewrite spans_started_span_exit, Hn.
  rewrite (spans_started_inside_span _ _ _ Hattrs). lia.
Qed.

End Properties.

(** * Further properties of the wrapper and the instrumentor *)

Section Further.

Context `{Collaborators}.

(** ** Which attributes a wrapped call sets *)

Lemma for_each_app {A} (l1 l2 : list A) (body : A → M unit) st :
  for_each (l1 ++ l2) body st = bind (for_each l1 body) (λ _, for_each l2 body) st.
Proof.
  revert st. induction l1 as [|a l1 IH]; intros st; [done|].
  simpl. unfold bind. destruct (body a st) as [[[]|e] st1]; [|done].
  rewrite IH. done.
Qed.

(** The trace of a call through one layer, from what the attribute
    statements did. *)
Lemma call_trace_of_populate f w instance args kwargs st r attrs :
  populate_attributes (wrapper_tracer w) (wrapper_cmd w) (span_of w st) instance args st
  = (r, add_events attrs st) →
  trace (call (FunctionWrapper (Function f) w) instance args kwargs st).2
  = trace st ++ SpanStarted (spans_started (trace st)) _CMD INTERNAL []
                :: attrs ++ [SpanEnded (spans_started (trace st))].
Proof.
  intros Hrun.
  destruct (call_innermost_layer f w instance args kwargs st)
    as (r' & attrs' & _ & Hpop & ->).
  rewrite Hpop in Hrun. injection Hrun as _ Hattrs.
  apply app_inv_head in Hattrs. by subst attrs'.
Qed.

Lemma set_connection_attributes_accepted span instance items st0 :
  _get_address_attributes instance = Return items →
  accepts span items →
  _set_connection_attributes span instance st0
  = (Return tt, add_events (attributes_set (span_id span) items) st0).
Proof.
  intros Hitems Haccepts. unfold _set_connection_attributes, bind, lift.
  rewrite Hitems. clear Hitems. revert st0.
  induction Haccepts as [|kv items Hkv _ IH]; intros st0.
  - simpl. unfold ret. by rewrite add_events_nil.
  - simpl. unfold bind, set_attribute. rewrite Hkv, IH.
    by rewrite emit_add_events, add_events_app.
Qed.

(** X5. [_set_connection_attributes] sets the attributes in the order the
    helper gives them and stops at the first one the span rejects: the
    attributes before it stay set, the ones after it are never set, and
    the span's exception is raised. *)
Theorem set_connection_attributes_stops_at_rejection
    span instance items1 key value items2 e st0 :
  _get_address_attributes instance = Return (items1 ++ (key, value) :: items2) →
  accepts span items1 →
  span_set_attribute (span_tracer span) key value = Raise e →
  _set_connection_attributes span instance st0
  = (Raise e, add_events (attributes_set (span_id span) items1) st0).
Proof.
  intros Hitems Haccepts Hreject. unfold _set_connection_attributes, bind, lift.
  rewrite Hitems. clear Hitems. revert st0.
  induction Haccepts as [|kv items Hkv _ IH]; intros st0.
  - simpl. unfold bind, set_attribute. rewrite Hreject. by rewrite add_events_nil.
  - simpl. unfold bind at 1. unfold set_attribute at 1. rewrite Hkv.
    simpl in IH. rewrite IH. by rewrite emit_add_events, add_events_app.
Qed.

(** X1. With a tracer that has no instrumentation name (the first
    attribute statement raises), a wrapped call records the start and the
    end of its span and nothing else: the command string and the
    connection attributes are not set either. *)
Theorem no_instrumentation_name_no_attributes f w instance args kwargs st e :
  instrumentation_info_name (wrapper_tracer w) = Raise e →
  trace (call (FunctionWrapper (Function f) w) instance args kwargs st).2
  = trace st ++ [ SpanStarted (spans_started (trace st)) _CMD INTERNAL [];
                  SpanEnded (spans_started (trace st)) ].
Proof.
  intros Hname.
  apply (call_trace_of_populate f w instance args kwargs st (Raise e) []).
  unfold populate_attributes, bind, lift. by rewrite Hname, add_events_nil.
Qed.

(** X2. When rendering the arguments raises, the service attribute that
    was already set stays, and the connection attributes are not set,
    whatever the client's configuration is. *)
Theorem render_failure_drops_connection_attributes
    f w instance args kwargs st service e :
  instrumentation_info_name (wrapper_tracer w) = Return service →
  span_set_attribute (wrapper_tracer w) "service" (PyStr service) = Return tt →
  _get_query_string args = Raise e →
  trace (call (FunctionWrapper (Function f) w) instance args kwargs st).2
  = trace st ++ [ SpanStarted (spans_started (trace st)) _CMD INTERNAL [];
                  AttributeSet (spans_started (trace st)) "service" (PyStr service);
                  SpanEnded (spans_started (trace st)) ].
Proof.
  intros Hname Hset Hvals.
  apply (call_trace_of_populate f w instance args kwargs st (Raise e)
           [AttributeSet (spans_started (trace st)) "service" (PyStr service)]).
  unfold populate_attributes. unfold bind at 1. unfold lift at 1. rewrite Hname.
  unfold bind at 1. unfold set_attribute at 1. simpl. rewrite Hset.
  unfold bind, lift. by rewrite Hvals.
Qed.

(** X3. When the connection attributes cannot be derived from the client
    (the helper raises), the span still carries the service and the
    command string, and the call goes on to the client method. *)
Theorem address_failure_keeps_statement
    f w instance args kwargs st service vals e :
  instrumentation_info_name (wrapper_tracer w) = Return service →
  span_set_attribute (wrapper_tracer w) "service" (PyStr service) = Return tt →
  _get_query_string args = Return vals →
  span_set_attribute (wrapper_tracer w) _RAWCMD
    (PyStr (format3 (wrapper_cmd w) (if str_truthy vals then " " else "") vals))
  = Return tt →
  _get_address_attributes instance = Raise e →
  call (FunctionWrapper (Function f) w) instance args kwargs st
  = ((f instance args kwargs (world st)).1,
     {| methods := methods st;
        world := (f instance args kwargs (world st)).2;
        trace := trace st ++
          [ SpanStarted (spans_started (trace st)) _CMD INTERNAL [];
            AttributeSet (spans_started (trace st)) "service" (PyStr service);
            AttributeSet (spans_started (trace st)) _RAWCMD
              (PyStr (format3 (wrapper_cmd w) (if str_truthy vals then " " else "") vals));
            SpanEnded (spans_started (trace st)) ] |}).
Proof.
  intros Hname Hset Hvals Hset' Haddress.
  destruct (call_innermost_layer f w instance args kwargs st)
    as (r' & attrs' & _ & Hpop & ->).
  specialize (Hpop st). revert Hpop.
  unfold populate_attributes. unfold bind at 1. unfold lift at 1. rewrite Hname.
  unfold bind at 1. unfold set_attribute at 1. simpl. rewrite Hset.
  unfold bind at 1. unfold lift at 1. rewrite Hvals.
  unfold bind at 1. unfold set_attribute at 1. simpl. rewrite Hset'.
  unfold _set_connection_attributes, bind, lift. rewrite Haddress.
  intros Hpop. injection Hpop as _ Hattrs.
  rewrite <- !app_assoc in Hattrs. apply app_inv_head in Hattrs. by subst attrs'.
Qed.

(** X4. When nothing raises, the attributes of the span are, in this
    order: the service, the command string, and the connection attributes
    in the order the helper gives them. *)
Theorem attributes_in_order f w instance args kwargs st service vals items :
  instrumentation_info_name (wrapper_tracer w) = Return service →
  span_set_attribute (wrapper_tracer w) "service" (PyStr service) = Return tt →
  _get_query_string args = Return vals →
  span_set_attribute (wrapper_tracer w) _RAWCMD
    (PyStr (format3 (wrapper_cmd w) (if str_truthy vals then " " else "") vals))
  = Return tt →
  _get_address_attributes instance = Return items →
  accepts (span_of w st) items →
  trace (call (FunctionWrapper (Function f) w) instance args kwargs st).2
  = trace st ++
      SpanStarted (spans_started (trace st)) _CMD INTERNAL []
      :: AttributeSet (spans_started (trace st)) "service" (PyStr service)
      :: AttributeSet (spans_started (trace st)) _RAWCMD
           (PyStr (format3 (wrapper_cmd w) (if str_truthy vals then " " else "") vals))
      :: attributes_set (spans_started (trace st)) items
      ++ [SpanEnded (spans_started (trace st))].
Proof.
  intros Hname Hset Hvals Hset' Hitems Haccepts.
  apply (call_trace_of_populate f w instance args kwargs st (Return tt)
    (AttributeSet (spans_started (trace st)) "service" (PyStr service)
     :: AttributeSet (spans_started (trace st)) _RAWCMD
          (PyStr (format3 (wrapper_cmd w) (if str_truthy vals then " " else "") vals))
     :: attributes_set (spans_started (trace st)) items)).
  unfold populate_attributes. unfold bind at 1. unfold lift at 1. rewrite Hname.
  unfold bind at 1. unfold set_attribute at 1. simpl. rewrite Hset.
  unfold bind at 1. unfold lift at 1. rewrite Hvals.
  unfold bind at 1. unfold set_attribute at 1. simpl. rewrite Hset'.
  rewrite (set_connection_attributes_accepted _ _ items) by done.
  by rewrite !emit_add_events, !add_events_app.
Qed.

(** X6. The keyword arguments of a call never reach the telemetry of
    the wrapper: for any wrapped callable without the marker, two calls
    that differ only in their keyword arguments record the same span start
    and the same attributes, and start the wrapped callable in the same
    state; the keyword arguments are handed to the wrapped callable and
    used nowhere else. *)
Theorem wrapper_telemetry_ignores_kwargs
    w wrapped instance args kwargs1 kwargs2 st :
  has___wrapped__ wrapped = false →
  ∃ attrs,
    attribute_events (spans_started (trace st)) attrs
    ∧ apply_wrapper w wrapped instance args kwargs1 st
      = ((call_wrapped wrapped args kwargs1 (inside_span attrs st)).1,
         span_exit (span_of w st)
           (call_wrapped wrapped args kwargs1 (inside_span attrs st)).2)
    ∧ apply_wrapper w wrapped instance args kwargs2 st
      = ((call_wrapped wrapped args kwargs2 (inside_span attrs st)).1,
         span_exit (span_of w st)
           (call_wrapped wrapped args kwargs2 (inside_span attrs st)).2).
Proof.
  intros Hmarker.
  destruct (wrapper_around w instance args st) as (attrs & Hattrs & Hcall).
  exists attrs. split; [exact Hattrs|]. split; by apply Hcall.
Qed.

(** ** Configuration *)

Lemma _wrap_other tracer cmd name st :
  name ≠ cmd →
  methods (_wrap "pymemcache.client.base" ("Client." +:+ cmd) (_wrap_cmd tracer cmd) st).2
    !! name = methods st !! name.
Proof.
  intros Hne. unfold _wrap. rewrite strip_prefix_Client.
  destruct (negb _); [done|]. destruct (methods st !! cmd); [|done].
  simpl. by rewrite lookup_insert_ne.
Qed.

Lemma _unwrap_other attr name st :
  name ≠ attr → methods (_unwrap attr st).2 !! name = methods st !! name.
Proof. intros Hne. rewrite _unwrap_alter. simpl. by rewrite lookup_alter_ne. Qed.

Lemma for_each_other (l : list string) (body : string → M unit) name :
  (∀ cmd st, name ≠ cmd → methods (body cmd st).2 !! name = methods st !! name) →
  name ∉ l →
  ∀ st, methods (for_each l body st).2 !! name = methods st !! name.
Proof.
  intros Hbody. induction l as [|a l IH]; intros Hname st; [done|].
  apply not_elem_of_cons in Hname as [Hne Hname].
  simpl. unfold bind. pose proof (Hbody a st Hne) as Ha.
  destruct (body a st) as [[[]|e] st1]; simpl in *; [|done].
  by rewrite IH.
Qed.

Lemma configure_other op name st :
  name ∉ COMMANDS → methods (configure op st).2 !! name = methods st !! name.
Proof.
  intros Hname. destruct op as [tracer_provider|]; simpl.
  - apply for_each_other; [|done]. intros cmd st1 Hne. by apply _wrap_other.
  - apply for_each_other; [|done]. intros cmd st1 Hne. by apply _unwrap_other.
Qed.

(** X7. Activations and deactivations, in any number and order, each
    one run whatever the ones before it did (an activation that raised
    half way included), create no span, do not touch the cache client's
    world, and leave every attribute of the class that is not one of the
    commands as it is. *)
Theorem configuration_touches_only_commands (ops : list configuration_call) st :
  world (perform_all (map Configure ops) st) = world st
  ∧ trace (perform_all (map Configure ops) st) = trace st
  ∧ ∀ name, name ∉ COMMANDS →
      methods (perform_all (map Configure ops) st) !! name = methods st !! name.
Proof.
  revert st. induction ops as [|op ops IH]; intros st; [done|].
  change (perform_all (map Configure (op :: ops)) st)
    with (perform_all (map Configure ops) (configure op st).2).
  destruct (IH (configure op st).2) as (Hworld & Htrace & Hother).
  destruct (same_functions_configure op st) as (Hworld1 & Htrace1 & _).
  split; [by rewrite Hworld|]. split; [by rewrite Htrace|].
  intros name Hname. rewrite Hother by done. by apply configure_other.
Qed.

(** X8. The tracer of the first activation is the one every call uses:
    after further activations with other providers, a command behaves
    exactly as under the single layer of the first activation. *)
Theorem first_activation_tracer_is_used
    (p : option TracerProvider) (ps : list (option TracerProvider))
    cmd instance args kwargs st :
  cmd ∈ COMMANDS → unwrapped_client (methods st) = true →
  ∃ st1 f,
    for_each (p :: ps) _instrument st = (Return tt, st1)
    ∧ methods st !! cmd = Some (Function f)
    ∧ invoke cmd instance args kwargs st1
      = call (FunctionWrapper (Function f) (_wrap_cmd (tracer_for p) cmd))
             instance args kwargs st1.
Proof.
  intros Hcmd Hclient.
  destruct (activations_table (p :: ps) st (unwrapped_client_present _ Hclient))
    as (m' & Hrun & Hm').
  destruct (unwrapped_client_lookup _ cmd Hclient Hcmd) as [f Hf].
  specialize (Hm' cmd). rewrite decide_True, Hf in Hm' by done. simpl in Hm'.
  exists (set_methods m' st), f. split; [exact Hrun|]. split; [exact Hf|].
  unfold invoke. simpl methods. rewrite Hm'.
  rewrite (call_layers _ (_wrap_cmd (tracer_for p) cmd)).
  - by rewrite innermost_wrap_layers.
  - by apply innermost_wrapper_wrap_layers.
Qed.

Lemma iter_unwrap_wrap_layers cmd tracers c :
  Nat.iter (length tracers) unwrap_layer (wrap_layers cmd tracers c) = c.
Proof.
  revert c. induction tracers as [|t ts IH]; intros c; [done|].
  rewrite wrap_layers_cons. change (length (t :: ts)) with (S (length ts)).
  by rewrite Nat.iter_succ, IH.
Qed.

Lemma iter_unwrap_function k (f : method) :
  Nat.iter k unwrap_layer (Function f) = Function f.
Proof. induction k as [|k IH]; [done|]. by rewrite Nat.iter_succ, IH. Qed.

(** X9. Deactivating as many times as the class was activated gives the
    method table back exactly, whatever the class held before, wrappers
    included. *)
Theorem deactivations_undo_activations
    (providers : list (option TracerProvider)) st :
  commands_present st →
  bind (for_each providers _instrument)
       (λ _, repeat_call (length providers) _uninstrument) st
  = (Return tt, st).
Proof.
  intros Hpresent.
  destruct (activations_table providers st Hpresent) as (m1 & Hrun1 & Hm1).
  destruct (deactivations_table (length providers) (set_methods m1 st))
    as (m2 & Hrun2 & Hm2).
  unfold bind. rewrite Hrun1, Hrun2. f_equal.
  replace m2 with (methods st); [by destruct st|].
  apply map_eq. intros name. rewrite Hm2. simpl. rewrite Hm1.
  destruct (decide _); [|done]. destruct (methods st !! name) as [c|]; [|done].
  simpl. f_equal.
  rewrite <- (length_map tracer_for providers). by rewrite iter_unwrap_wrap_layers.
Qed.

(** X10. On the class as the library defines it, deactivating at least as
    many times as it was activated gives the class back exactly: the
    deactivations in excess change nothing. *)
Theorem excess_deactivations_harmless
    (providers : list (option TracerProvider)) k st :
  unwrapped_client (methods st) = true →
  (length providers ≤ k)%nat →
  bind (for_each providers _instrument) (λ _, repeat_call k _uninstrument) st
  = (Return tt, st).
Proof.
  intros Hclient Hk.
  destruct (activations_table providers st (unwrapped_client_present _ Hclient))
    as (m1 & Hrun1 & Hm1).
  destruct (deactivations_table k (set_methods m1 st)) as (m2 & Hrun2 & Hm2).
  unfold bind. rewrite Hrun1, Hrun2. f_equal.
  replace m2 with (methods st); [by destruct st|].
  apply map_eq. intros name. rewrite Hm2. simpl. rewrite Hm1.
  destruct (decide _) as [Hcmd|]; [|done].
  destruct (unwrapped_client_lookup _ name Hclient Hcmd) as [f ->].
  simpl. f_equal.
  replace k with ((k - length providers) + length (map tracer_for providers))
    by (rewrite length_map; lia).
  by rewrite Nat.iter_add, iter_unwrap_wrap_layers, iter_unwrap_function.
Qed.

(** ** Activation on a class that lacks a command *)

Lemma no_wrappers_lookup m cmd :
  no_wrappers m = true → cmd ∈ COMMANDS →
  unwrap_layer <$> m !! cmd = m !! cmd.
Proof.
  unfold no_wrappers. rewrite forallb_forall. intros Hall Hcmd.
  apply list_elem_of_In in Hcmd. specialize (Hall cmd Hcmd).
  by destruct (m !! cmd) as [[f|c w]|].
Qed.

(** X11. When the class lacks a command, [_instrument] raises the
    [AttributeError] of the attribute lookup on the class, for the first
    command of [COMMANDS] that is missing;
    the commands before it are wrapped by then and stay wrapped, the ones
    after it are not touched. *)
Theorem instrument_missing_command
    (tracer_provider : option TracerProvider) l1 cmd l2 st :
  COMMANDS = l1 ++ cmd :: l2 →
  Forall (λ c, is_Some (methods st !! c)) l1 →
  methods st !! cmd = None →
  ∃ m',
    _instrument tracer_provider st
    = (Raise (Exn "AttributeError"
                ("type object 'Client' has no attribute '" +:+ cmd +:+ "'")),
       set_methods m' st)
    ∧ ∀ name, m' !! name =
        if decide (name ∈ l1)
        then (λ c, FunctionWrapper c (_wrap_cmd (tracer_for tracer_provider) name))
               <$> methods st !! name
        else methods st !! name.
Proof.
  intros Hsplit Hpresent Hmissing.
  pose proof COMMANDS_NoDup as Hnd. rewrite Hsplit in Hnd.
  apply NoDup_app in Hnd as (Hnd1 & Hdisjoint & _).
  assert (Hcmd : cmd ∉ l1).
  { intros Hin. apply (Hdisjoint cmd Hin). apply elem_of_cons. by left. }
  rewrite Forall_forall in Hpresent.
  destruct (for_each_wrap (tracer_for tracer_provider) l1 Hnd1 st Hpresent)
    as (m' & Hrun & Hm').
  exists m'. split; [|exact Hm'].
  change (_instrument tracer_provider st) with
    (for_each COMMANDS (λ c,
       _wrap "pymemcache.client.base" ("Client." +:+ c)
             (_wrap_cmd (tracer_for tracer_provider) c)) st).
  rewrite Hsplit, for_each_app. unfold bind at 1. rewrite Hrun.
  simpl for_each. unfold bind. rewrite _wrap_missing; [reflexivity|].
  simpl. by rewrite Hm', decide_False.
Qed.

(** What the loop of [_instrument] leaves behind, whether or not it gets
    to the end: every name holds what it held, or a wrapper around it. *)
Lemma for_each_wrap_partial tracer (l : list string) :
  NoDup l → ∀ st,
  ∃ m', (for_each l (λ cmd,
            _wrap "pymemcache.client.base" ("Client." +:+ cmd) (_wrap_cmd tracer cmd)) st).2
        = set_methods m' st
        ∧ ∀ name, m' !! name = methods st !! name
                  ∨ (name ∈ l ∧ m' !! name
                       = (λ c, FunctionWrapper c (_wrap_cmd tracer name)) <$> methods st !! name).
Proof.
  induction 1 as [|a l Ha Hl IH]; intros st.
  - exists (methods st). split; [simpl; by rewrite set_methods_same|]. by left.
  - simpl. unfold bind.
    destruct (methods st !! a) as [c|] eqn:Hc.
    + rewrite (_wrap_command tracer a c st Hc).
      destruct (IH (set_methods (<[a := FunctionWrapper c (_wrap_cmd tracer a)]> (methods st)) st))
        as (m' & Hrun & Hm').
      exists m'. split; [exact Hrun|]. intros name.
      destruct (Hm' name) as [Hsame|[Hin Hwrapped]]; simpl in *.
      * destruct (decide (name = a)) as [->|Hne].
        -- right. split; [apply elem_of_cons; by left|].
           by rewrite Hsame, lookup_insert_eq, Hc.
        -- left. by rewrite Hsame, lookup_insert_ne.
      * right. split; [apply elem_of_cons; by right|].
        rewrite Hwrapped, lookup_insert_ne; [done|]. by intros ->.
    + rewrite (_wrap_missing tracer a st Hc). simpl.
      exists (methods st). split; [by rewrite set_methods_same|]. by left.
Qed.

(** X12. On a class that holds no wrapper, [_uninstrument] undoes
    [_instrument] exactly, also when [_instrument] raised half way because
    a command is missing: no command is left wrapped. *)
Theorem uninstrument_undoes_failed_instrument
    (tracer_provider : option TracerProvider) st :
  no_wrappers (methods st) = true →
  _uninstrument (_instrument tracer_provider st).2 = (Return tt, st).
Proof.
  intros Hplain.
  destruct (for_each_wrap_partial (tracer_for tracer_provider) COMMANDS
              COMMANDS_NoDup st) as (m1 & Hrun1 & Hm1).
  change (_instrument tracer_provider st) with
    (for_each COMMANDS (λ c,
       _wrap "pymemcache.client.base" ("Client." +:+ c)
             (_wrap_cmd (tracer_for tracer_provider) c)) st).
  rewrite Hrun1.
  destruct (_uninstrument_table (set_methods m1 st)) as (m2 & Hrun2 & Hm2).
  rewrite Hrun2. f_equal. replace m2 with (methods st); [by destruct st|].
  apply map_eq. intros name. rewrite Hm2. simpl.
  destruct (Hm1 name) as [Hsame|[Hin Hwrapped]].
  - rewrite Hsame. destruct (decide _) as [Hcmd|]; [|done].
    by rewrite no_wrappers_lookup.
  - rewrite decide_True, Hwrapped by done. by destruct (methods st !! name).
Qed.

(** ** Spans over a run of the program *)

Lemma invoke_new_events name instance args kwargs st :
  ∃ evs, trace (invoke name instance args kwargs st).2 = trace st ++ evs
    ∧ (evs = [] ∨ ∃ id attrs, attribute_events id attrs
         ∧ evs = SpanStarted id _CMD INTERNAL [] :: attrs ++ [SpanEnded id]).
Proof.
  unfold invoke. destruct (methods st !! name) as [c|].
  - destruct (hasattr___wrapped__ c) eqn:Hmarker.
    + destruct (call_traced c instance args kwargs st Hmarker)
        as (w & r & attrs & _ & Hattrs & _ & ->).
      eexists. split; [done|]. right. by eexists _, _.
    + destruct c; [|done]. rewrite call_function.
      exists []. split; [simpl; by rewrite app_nil_r|]. by left.
  - exists []. split; [simpl; by rewrite app_nil_r|]. by left.
Qed.

Lemma perform_new_events st a :
  ∃ evs, trace (perform st a) = trace st ++ evs
    ∧ (evs = [] ∨ ∃ id attrs, attribute_events id attrs
         ∧ evs = SpanStarted id _CMD INTERNAL [] :: attrs ++ [SpanEnded id]).
Proof.
  destruct a as [op|name instance args kwargs]; simpl.
  - destruct (same_functions_configure op st) as (_ & -> & _).
    exists []. split; [by rewrite app_nil_r|]. by left.
  - apply invoke_new_events.
Qed.

(** X13. No call leaves a span open.  Over any run of the program
    (activations, deactivations and command calls in any order, calls that
    raise included) the trace only grows, and if every span of the trace
    was ended before the run, every span is ended after it. *)
Theorem no_span_left_open (actions : list action) st :
  all_spans_ended (trace st) →
  all_spans_ended (trace (perform_all actions st))
  ∧ ∃ evs, trace (perform_all actions st) = trace st ++ evs.
Proof.
  revert st. induction actions as [|a actions IH]; intros st Hended.
  - split; [done|]. exists []. by rewrite app_nil_r.
  - destruct (perform_new_events st a) as (evs & Htrace & Hevs).
    destruct (IH (perform st a)) as (Hended' & evs' & Htrace').
    { rewrite Htrace. intros id name kind attributes Hin.
      apply elem_of_app in Hin as [Hin|Hin].
      - apply elem_of_app. left. by eapply Hended.
      - apply elem_of_app. right.
        destruct Hevs as [->|(id0 & attrs & Hattrs & ->)];
          [by apply elem_of_nil in Hin|].
        apply elem_of_cons in Hin as [Heq|Hin].
        + injection Heq as -> _ _ _.
          apply elem_of_cons. right. apply elem_of_app. right.
          apply elem_of_cons. by left.
        + apply elem_of_app in Hin as [Hin|Hin].
          * unfold attribute_events in Hattrs. rewrite Forall_forall in Hattrs.
            by destruct (Hattrs _ Hin) as (key & value & ?).
          * apply elem_of_cons in Hin as [?|Hin]; [done|].
            by apply elem_of_nil in Hin. }
    split; [exact Hended'|].
    exists (evs ++ evs'). simpl. rewrite Htrace', Htrace. by rewrite app_assoc.
Qed.

End Further.

(** * Concrete runs *)

Import Sample.

Lemma C1_one_span_of_its_own_witness :
  ∃ st1 attrs,
    for_each [sdk; no_provider] _instrument start = (Return tt, st1)
    ∧ attribute_events (spans_started (trace st1)) attrs
    ∧ trace (invoke "get" localhost [PyStr "k"] [] st1).2
      = trace st1 ++ SpanStarted (spans_started (trace st1)) _CMD INTERNAL []
                     :: attrs ++ [SpanEnded (spans_started (trace st1))]
    ∧ spans_started (trace (invoke "get" localhost [PyStr "k"] [] st1).2)
      = S (spans_started (trace st1)).
Proof.
  apply (proj2 (proj2 (proj2 (@C1_one_span_of_its_own sample)))
           [sdk; no_provider] "get" localhost [PyStr "k"] [] start).
  - discriminate.
  - compute_done.
  - vm_compute; reflexivity.
Defined.

Lemma C2_same_result_as_original_witness :
  (invoke "get" localhost [PyStr "k"] []
     (for_each [Activate sdk; Activate no_provider; Deactivate] configure start).2).1
  = (echo "get" localhost [PyStr "k"] [] (world start)).1
  ∧ world (invoke "get" localhost [PyStr "k"] []
     (for_each [Activate sdk; Activate no_provider; Deactivate] configure start).2).2
    = (echo "get" localhost [PyStr "k"] [] (world start)).2.
Proof.
  apply (@C2_same_result_as_original sample
           [Activate sdk; Activate no_provider; Deactivate] "get" (echo "get")).
  vm_compute; reflexivity.
Defined.

Example get_k_trace :
  call traced_get localhost [PyStr "k"] [] start
  = (Return (PyTuple [PyStr "get"; PyStr "k"]),
     {| methods := client_class; world := 1;
        trace := [ SpanStarted 0 "memcached.command" INTERNAL [];
                   AttributeSet 0 "service" (PyStr "opentelemetry.ext.pymemcache");
                   AttributeSet 0 "db.statement" (PyStr "get k");
                   AttributeSet 0 "net.peer.name" (PyStr "localhost");
                   AttributeSet 0 "net.peer.port" (PyInt 11211);
                   SpanEnded 0 ] |}).
Proof. vm_compute; reflexivity. Qed.

Example version_trace :
  trace (call traced_version {| server := PyNone |} [] [] start).2
  = [ SpanStarted 0 "memcached.command" INTERNAL [];
      AttributeSet 0 "service" (PyStr "opentelemetry.ext.pymemcache");
      AttributeSet 0 "db.statement" (PyStr "version");
      SpanEnded 0 ].
Proof. vm_compute; reflexivity. Qed.

Example default_tracer_trace :
  (bind (_instrument no_provider) (λ _, invoke "get" localhost [PyStr "k"] []) start).1
  = Return (PyTuple [PyStr "get"; PyStr "k"])
  ∧ trace (bind (_instrument no_provider) (λ _, invoke "get" localhost [PyStr "k"] []) start).2
    = [ SpanStarted 0 "memcached.command" INTERNAL []; SpanEnded 0 ].
Proof. split; vm_compute; reflexivity. Qed.

Lemma C3_attribute_errors_swallowed_witness :
  call traced_get localhost [PyNone] [] start
  = ((echo "get" localhost [PyNone] [] (world start)).1,
     span_exit (span_of (_wrap_cmd (tracer_for sdk) "get") start)
       (set_world (echo "get" localhost [PyNone] [] (world start)).2
          {| methods := client_class; world := 0;
             trace := [ SpanStarted 0 "memcached.command" INTERNAL [];
                        AttributeSet 0 "service" (PyStr "opentelemetry.ext.pymemcache") ] |})).
Proof.
  apply (@C3_attribute_errors_swallowed sample (echo "get")
           (_wrap_cmd (tracer_for sdk) "get") localhost [PyNone] [] start
           (Exn "TypeError" "key is None")).
  vm_compute; reflexivity.
Defined.

Lemma C4_exception_propagates_witness :
  ∃ st' attrs,
    call traced_refusing_get localhost [PyStr "k"] [] start_refusing
    = (Raise (Exn "ConnectionRefusedError" "Connection refused"), st')
    ∧ world st' = 1
    ∧ attribute_events (spans_started (trace start_refusing)) attrs
    ∧ trace st' = trace start_refusing
                  ++ SpanStarted (spans_started (trace start_refusing)) _CMD INTERNAL []
                     :: attrs ++ [SpanEnded (spans_started (trace start_refusing))]
    ∧ last (trace st') = Some (SpanEnded (spans_started (trace start_refusing))).
Proof.
  apply (@C4_exception_propagates sample traced_refusing_get localhost [PyStr "k"] []
           start_refusing).
  - reflexivity.
  - vm_compute; reflexivity.
Defined.

(** After two activations the method table holds two layers for [get]:
    the wrap step did not skip the second one. *)
Lemma C5_two_layers_counterexample :
  ¬ (∀ cmd c,
       cmd ∈ COMMANDS →
       methods (for_each [sdk; sdk] _instrument start).2 !! cmd = Some c →
       (wrapping_layers c ≤ 1)%nat).
Proof.
  intros Hclaim.
  specialize (Hclaim "get"
    (FunctionWrapper traced_get (_wrap_cmd (tracer_for sdk) "get"))).
  assert (Hlayers : (2 ≤ 1)%nat); [|lia].
  apply Hclaim; [compute_done|vm_compute; reflexivity].
Qed.

Lemma C5_layers_stack_guard_at_call_witness :
  ∃ st1 c,
    for_each [sdk; sdk] _instrument start = (Return tt, st1)
    ∧ methods st1 !! "get" = Some c
    ∧ wrapping_layers c = 2
    ∧ ∀ instance args kwargs st2,
        spans_started (trace (call c instance args kwargs st2).2)
        = spans_started (trace st2) + 1.
Proof.
  apply (@C5_layers_stack_guard_at_call sample [sdk; sdk] "get" start).
  - compute_done.
  - vm_compute; reflexivity.
Defined.

Lemma C6_deactivate_restores_witness :
  _uninstrument start = (Return tt, start)
  ∧ ∀ tracer_provider,
      bind (_instrument tracer_provider) (λ _, _uninstrument) start = (Return tt, start)
      ∧ bind (_instrument tracer_provider)
          (λ _, bind _uninstrument (λ _, _uninstrument)) start = (Return tt, start)
      ∧ ∀ cmd f instance args kwargs,
          methods start !! cmd = Some (Function f) →
          let st' := (bind (_instrument tracer_provider) (λ _, _uninstrument) start).2 in
          (invoke cmd instance args kwargs st').1
          = (f instance args kwargs (world st')).1
          ∧ trace (invoke cmd instance args kwargs st').2 = trace st'.
Proof.
  apply (proj2 (@C6_deactivate_restores sample) start).
  vm_compute; reflexivity.
Defined.

Lemma C7_command_string_witness :
  AttributeSet (spans_started (trace start)) _RAWCMD
    (PyStr (if String.eqb "" "" then "version" else "version" +:+ " " +:+ ""))
  ∈ trace (call traced_version localhost [] [] start).2.
Proof.
  apply (@C7_command_string sample (echo "version")
           (_wrap_cmd (tracer_for sdk) "version") localhost [] [] start
           "opentelemetry.ext.pymemcache" "");
    reflexivity.
Defined.

Lemma C8_span_creation_witness :
  ∃ later,
    trace (call traced_get localhost [PyStr "k"] [] start).2
    = trace start ++ SpanStarted (spans_started (trace start)) _CMD INTERNAL [] :: later
    ∧ spans_started later = 0.
Proof.
  apply (@C8_span_creation sample (@Function sample (echo "get"))
           (_wrap_cmd (tracer_for sdk) "get") localhost [PyStr "k"] [] start).
  reflexivity.
Defined.

Lemma C9_deactivation_removes_one_layer_witness :
  ∃ st' f,
    bind (_instrument sdk) (λ _, bind (_instrument no_provider) (λ _, _uninstrument)) start
    = (Return tt, st')
    ∧ methods start !! "get" = Some (Function f)
    ∧ methods st' !! "get"
      = Some (FunctionWrapper (Function f) (_wrap_cmd (tracer_for sdk) "get"))
    ∧ ∀ instance args kwargs,
        spans_started (trace (invoke "get" instance args kwargs st').2)
        = S (spans_started (trace st')).
Proof.
  apply (proj1 (@C9_deactivation_removes_one_layer sample) sdk no_provider "get" start).
  - compute_done.
  - vm_compute; reflexivity.
Defined.

Lemma C10_telemetry_names_witness :
  AttributeSet 0 "service" (PyStr "opentelemetry.ext.pymemcache")
  ∈ trace (call traced_get localhost [PyStr "k"] [] start).2
  ∧ AttributeSet 0 "db.statement" (PyStr "get k")
    ∈ trace (call traced_get localhost [PyStr "k"] [] start).2.
Proof.
  pose proof (proj2 (@C10_telemetry_names sample (echo "get")
                       (_wrap_cmd (tracer_for sdk) "get")
                       localhost [PyStr "k"] [] start)
                "opentelemetry.ext.pymemcache" eq_refl eq_refl) as [Hservice Hstatement].
  split; [exact Hservice|].
  exact (Hstatement "k" eq_refl eq_refl).
Defined.

Lemma no_instrumentation_name_no_attributes_witness :
  trace (call (FunctionWrapper (Function (echo "get"))
                 (_wrap_cmd (tracer_for no_provider) "get"))
           localhost [PyStr "k"] [] start).2
  = trace start ++ [ SpanStarted (spans_started (trace start)) _CMD INTERNAL [];
                     SpanEnded (spans_started (trace start)) ].
Proof.
  apply (@no_instrumentation_name_no_attributes sample (echo "get")
           (_wrap_cmd (tracer_for no_provider) "get") localhost [PyStr "k"] [] start
           (Exn "AttributeError" "instrumentation_info")).
  reflexivity.
Defined.

Lemma render_failure_drops_connection_attributes_witness :
  trace (call traced_get localhost [PyNone] [] start).2
  = trace start ++
      [ SpanStarted (spans_started (trace start)) _CMD INTERNAL [];
        AttributeSet (spans_started (trace start)) "service"
          (PyStr "opentelemetry.ext.pymemcache");
        SpanEnded (spans_started (trace start)) ].
Proof.
  apply (@render_failure_drops_connection_attributes sample (echo "get")
           (_wrap_cmd (tracer_for sdk) "get") localhost [PyNone] [] start
           "opentelemetry.ext.pymemcache" (Exn "TypeError" "key is None"));
    reflexivity.
Defined.

Lemma address_failure_keeps_statement_witness :
  call traced_get misconfigured [PyStr "k"] [] start
  = ((echo "get" misconfigured [PyStr "k"] [] (world start)).1,
     {| methods := methods start;
        world := (echo "get" misconfigured [PyStr "k"] [] (world start)).2;
        trace := trace start ++
          [ SpanStarted (spans_started (trace start)) _CMD INTERNAL [];
            AttributeSet (spans_started (trace start)) "service"
              (PyStr "opentelemetry.ext.pymemcache");
            AttributeSet (spans_started (trace start)) _RAWCMD
              (PyStr (format3 "get" (if str_truthy "k" then " " else "") "k"));
            SpanEnded (spans_started (trace start)) ] |}).
Proof.
  apply (@address_failure_keeps_statement sample (echo "get")
           (_wrap_cmd (tracer_for sdk) "get") misconfigured [PyStr "k"] [] start
           "opentelemetry.ext.pymemcache" "k" (Exn "ValueError" "server"));
    reflexivity.
Defined.

Lemma attributes_in_order_witness :
  trace (call traced_get localhost [PyStr "k"] [] start).2
  = trace start ++
      SpanStarted (spans_started (trace start)) _CMD INTERNAL []
      :: AttributeSet (spans_started (trace start)) "service"
           (PyStr "opentelemetry.ext.pymemcache")
      :: AttributeSet (spans_started (trace start)) _RAWCMD
           (PyStr (format3 "get" (if str_truthy "k" then " " else "") "k"))
      :: attributes_set (spans_started (trace start))
           [("net.peer.name", PyStr "localhost"); ("net.peer.port", PyInt 11211)]
      ++ [SpanEnded (spans_started (trace start))].
Proof.
  apply (@attributes_in_order sample (echo "get")
           (_wrap_cmd (tracer_for sdk) "get") localhost [PyStr "k"] [] start
           "opentelemetry.ext.pymemcache" "k"
           [("net.peer.name", PyStr "localhost"); ("net.peer.port", PyInt 11211)]);
    try reflexivity.
  repeat constructor.
Defined.

Lemma set_connection_attributes_stops_at_rejection_witness :
  _set_connection_attributes {| span_id := 0; span_tracer := strings_only |} localhost start
  = (Raise (Exn "TypeError" "attribute value"),
     add_events
       (attributes_set 0 [("net.peer.name", PyStr "localhost")]) start).
Proof.
  apply (@set_connection_attributes_stops_at_rejection sample
           {| span_id := 0; span_tracer := strings_only |} localhost
           [("net.peer.name", PyStr "localhost")] "net.peer.port" (PyInt 11211) []
           (Exn "TypeError" "attribute value") start);
    try reflexivity.
  repeat constructor.
Defined.

Lemma configuration_touches_only_commands_witness :
  methods (perform_all
             (map Configure [Activate sdk; Deactivate; Activate no_provider])
             start_with_close) !! "close"
  = methods start_with_close !! "close".
Proof.
  apply (proj2 (proj2 (@configuration_touches_only_commands sample
                         [Activate sdk; Deactivate; Activate no_provider]
                         start_with_close)) "close").
  compute_done.
Defined.

(** In that run the first activation raises at [set_multi], the calls
    after it are made all the same, [close] is there and stays as it is,
    and [get] ends up wrapped. *)
Example configuration_run :
  (_instrument sdk start_with_close).1
  = Raise (Exn "AttributeError" "type object 'Client' has no attribute 'set_multi'")
  ∧ methods start_with_close !! "close" = Some (Function (echo "close"))
  ∧ wrapping_layers <$>
      methods (perform_all
                 (map Configure [Activate sdk; Deactivate; Activate no_provider])
                 start_with_close) !! "get"
    = Some 1.
Proof. repeat split; vm_compute; reflexivity. Qed.

Lemma first_activation_tracer_is_used_witness :
  ∃ st1 f,
    for_each [sdk; no_provider] _instrument start = (Return tt, st1)
    ∧ methods start !! "get" = Some (Function f)
    ∧ invoke "get" localhost [PyStr "k"] [] st1
      = call (FunctionWrapper (Function f) (_wrap_cmd (tracer_for sdk) "get"))
             localhost [PyStr "k"] [] st1.
Proof.
  apply (@first_activation_tracer_is_used sample sdk [no_provider] "get"
           localhost [PyStr "k"] [] start).
  - compute_done.
  - vm_compute; reflexivity.
Defined.

Lemma deactivations_undo_activations_witness :
  bind (for_each [sdk; no_provider] _instrument)
       (λ _, repeat_call (length [sdk; no_provider]) _uninstrument) start
  = (Return tt, start).
Proof.
  apply (@deactivations_undo_activations sample [sdk; no_provider] start).
  apply unwrapped_client_present. vm_compute; reflexivity.
Defined.

Lemma excess_deactivations_harmless_witness :
  bind (for_each [sdk] _instrument) (λ _, repeat_call 3 _uninstrument) start
  = (Return tt, start).
Proof.
  apply (@excess_deactivations_harmless sample [sdk] 3 start).
  - vm_compute; reflexivity.
  - simpl. lia.
Defined.

Lemma instrument_missing_command_witness :
  ∃ m',
    _instrument sdk start_without_set_multi
    = (Raise (Exn "AttributeError"
                ("type object 'Client' has no attribute '" +:+ "set_multi" +:+ "'")),
       set_methods m' start_without_set_multi)
    ∧ ∀ name, m' !! name =
        if decide (name ∈ [ "set"; "set_many"; "add"; "replace"; "append"; "prepend";
                            "cas"; "get"; "get_many"; "gets"; "gets_many"; "delete";
                            "delete_many"; "incr"; "decr"; "touch"; "stats"; "version";
                            "flush_all"; "quit" ])
        then (λ c, FunctionWrapper c (_wrap_cmd (tracer_for sdk) name))
               <$> methods start_without_set_multi !! name
        else methods start_without_set_multi !! name.
Proof.
  apply (@instrument_missing_command sample sdk
           [ "set"; "set_many"; "add"; "replace"; "append"; "prepend";
             "cas"; "get"; "get_many"; "gets"; "gets_many"; "delete";
             "delete_many"; "incr"; "decr"; "touch"; "stats"; "version";
             "flush_all"; "quit" ]
           "set_multi" ["get_multi"] start_without_set_multi).
  - reflexivity.
  - repeat (constructor; [eexists; vm_compute; reflexivity|]). constructor.
  - vm_compute; reflexivity.
Defined.

Lemma uninstrument_undoes_failed_instrument_witness :
  _uninstrument (_instrument sdk start_without_set_multi).2
  = (Return tt, start_without_set_multi).
Proof.
  apply (@uninstrument_undoes_failed_instrument sample sdk start_without_set_multi).
  vm_compute; reflexivity.
Defined.

Lemma no_span_left_open_witness :
  all_spans_ended (trace (perform_all program start_refusing))
  ∧ ∃ evs, trace (perform_all program start_refusing) = trace start_refusing ++ evs.
Proof.
  apply (@no_span_left_open sample program start_refusing).
  intros id name kind attributes Hin. by apply elem_of_nil in Hin.
Defined.

Example program_trace :
  trace (perform_all program start_refusing)
  = [ SpanStarted 0 "memcached.command" INTERNAL [];
      AttributeSet 0 "service" (PyStr "opentelemetry.ext.pymemcache");
      AttributeSet 0 "db.statement" (PyStr "get k");
      AttributeSet 0 "net.peer.name" (PyStr "localhost");
      AttributeSet 0 "net.peer.port" (PyInt 11211);
      SpanEnded 0;
      SpanStarted 1 "memcached.command" INTERNAL [];
      AttributeSet 1 "service" (PyStr "opentelemetry.ext.pymemcache");
      AttributeSet 1 "db.statement" (PyStr "set k");
      AttributeSet 1 "net.peer.name" (PyStr "localhost");
      AttributeSet 1 "net.peer.port" (PyInt 11211);
      SpanEnded 1;
      SpanStarted 2 "memcached.command" INTERNAL [];
      AttributeSet 2 "service" (PyStr "opentelemetry.ext.pymemcache");
      AttributeSet 2 "db.statement" (PyStr "version");
      AttributeSet 2 "net.peer.name" (PyStr "localhost");
      AttributeSet 2 "net.peer.port" (PyInt 11211);
      SpanEnded 2 ].
Proof. vm_compute; reflexivity. Qed.

(** ** A command written in terms of another command *)

(** With [delete] wrapped, a traced [delete_many] of two keys creates
    three spans: its own and, inside it, one for each [delete]. *)
Example delete_many_trace :
  trace (traced_delete_many localhost [PyList [PyStr "a"; PyStr "b"]] []
           (_instrument sdk start).2).2
  = [ SpanStarted 0 "memcached.command" INTERNAL [];
      AttributeSet 0 "service" (PyStr "opentelemetry.ext.pymemcache");
      AttributeSet 0 "db.statement" (PyStr "delete_many a b");
      AttributeSet 0 "net.peer.name" (PyStr "localhost");
      AttributeSet 0 "net.peer.port" (PyInt 11211);
      SpanStarted 1 "memcached.command" INTERNAL [];
      AttributeSet 1 "service" (PyStr "opentelemetry.ext.pymemcache");
      AttributeSet 1 "db.statement" (PyStr "delete a");
      AttributeSet 1 "net.peer.name" (PyStr "localhost");
      AttributeSet 1 "net.peer.port" (PyInt 11211);
      SpanEnded 1;
      SpanStarted 2 "memcached.command" INTERNAL [];
      AttributeSet 2 "service" (PyStr "opentelemetry.ext.pymemcache");
      AttributeSet 2 "db.statement" (PyStr "delete b");
      AttributeSet 2 "net.peer.name" (PyStr "localhost");
      AttributeSet 2 "net.peer.port" (PyInt 11211);
      SpanEnded 2;
      SpanEnded 0 ].
Proof. vm_compute; reflexivity. Qed.

(** After an activation, one call of [delete_many] does not create
    exactly one span: the spans of the two [delete] calls are nested in
    its own. *)
Lemma C1_nested_spans_counterexample :
  ¬ (spans_started
       (trace (traced_delete_many localhost [PyList [PyStr "a"; PyStr "b"]] []
                 (_instrument sdk start).2).2)
     = S (spans_started (trace (_instrument sdk start).2))).
Proof. intros Hone. vm_compute in Hone. discriminate Hone. Qed.

(** After two activations [get] carries the marker, and one deactivation
    does not put the original back: a wrapper is left. *)
Lemma C6_wrapper_left_counterexample :
  hasattr___wrapped__ <$>
    methods (for_each [sdk; no_provider] _instrument start).2 !! "get" = Some true
  ∧ ¬ (methods (_uninstrument (for_each [sdk; no_provider] _instrument start).2).2
         !! "get"
       = Some (Function (echo "get"))).
Proof.
  split; [vm_compute; reflexivity|]. intros Horiginal.
  apply (f_equal (fmap wrapping_layers)) in Horiginal.
  vm_compute in Horiginal. discriminate Horiginal.
Qed.

(** After two activations and one deactivation, one call of
    [delete_many] creates three spans, not one. *)
Lemma C9_nested_spans_counterexample :
  ¬ (spans_started
       (trace (traced_delete_many localhost [PyList [PyStr "a"; PyStr "b"]] []
                 (bind (_instrument sdk)
                    (λ _, bind (_instrument no_provider) (λ _, _uninstrument)) start).2).2)
     = S (spans_started
            (trace (bind (_instrument sdk)
                      (λ _, bind (_instrument no_provider) (λ _, _uninstrument)) start).2))).
Proof. intros Hone. vm_compute in Hone. discriminate Hone. Qed.

Lemma wrapper_telemetry_ignores_kwargs_witness :
  ∃ attrs,
    attribute_events (spans_started (trace start)) attrs
    ∧ apply_wrapper (_wrap_cmd (tracer_for sdk) "delete_many")
        {| has___wrapped__ := false; call_wrapped := delete_many_by_delete localhost |}
        localhost [PyList [PyStr "a"]] [("noreply", PyBool true)] start
      = ((delete_many_by_delete localhost [PyList [PyStr "a"]] [("noreply", PyBool true)]
            (inside_span attrs start)).1,
         span_exit (span_of (_wrap_cmd (tracer_for sdk) "delete_many") start)
           (delete_many_by_delete localhost [PyList [PyStr "a"]] [("noreply", PyBool true)]
              (inside_span attrs start)).2)
    ∧ apply_wrapper (_wrap_cmd (tracer_for sdk) "delete_many")
        {| has___wrapped__ := false; call_wrapped := delete_many_by_delete localhost |}
        localhost [PyList [PyStr "a"]] [] start
      = ((delete_many_by_delete localhost [PyList [PyStr "a"]] []
            (inside_span attrs start)).1,
         span_exit (span_of (_wrap_cmd (tracer_for sdk) "delete_many") start)
           (delete_many_by_delete localhost [PyList [PyStr "a"]] []
              (inside_span attrs start)).2).
Proof.
  apply (@wrapper_telemetry_ignores_kwargs sample
           (_wrap_cmd (tracer_for sdk) "delete_many")
           {| has___wrapped__ := false; call_wrapped := delete_many_by_delete localhost |}
           localhost [PyList [PyStr "a"]] [("noreply", PyBool true)] [] start).
  reflexivity.
Defined.
